(** * The SRS RAN simulator charm: command builders, handlers and status

    A shallow embedding of [src/charm.py] ([SrsLteCharm]).  The stored state
    is a record of five optional strings and three booleans; handlers are
    computations in a small state/log/exception monad; everything the charm
    imports from [utils] or from third-party libraries is read from a [Host]
    record, so every statement below holds for {e any} behaviour of those
    collaborators unless a concrete host is named. *)

From Stdlib Require Import String Ascii List Bool Arith Lia.
From stdpp Require Import base option gmap strings list fin_maps.
Import ListNotations.
Local Open Scope string_scope.

(** ** Python values as they appear in the charm *)

Module Py.

(** [str(x)] for an [Optional[str]], as an f-string formats it. *)
Definition str (o : option string) : string :=
  match o with
  | Some s => s
  | None => "None"
  end.

(** Truth value of an [Optional[str]]: [None] and [""] are falsy. *)
Definition truthy (o : option string) : bool :=
  match o with
  | Some s => negb (String.eqb s "")
  | None => false
  end.

(** [s.startswith(p)]. *)
Fixpoint startswith (p s : string) : bool :=
  match p with
  | "" => true
  | String a p' =>
      match s with
      | String b s' => Ascii.eqb a b && startswith p' s'
      | "" => false
      end
  end.

(** [sep.join(parts)]. *)
Definition join (sep : string) (parts : list string) : string :=
  String.concat sep parts.

(** [d[k]] on a constant dictionary written as a list of pairs. *)
Fixpoint item (d : list (string * string)) (k : string) : string :=
  match d with
  | [] => ""
  | (k', v) :: d' => if String.eqb k' k then v else item d' k
  end.

End Py.

(** ** Module-level constants *)

Definition APT_REQUIREMENTS : list string :=
  [ "git"; "libzmq3-dev"; "cmake"; "build-essential"; "libmbedtls-dev";
    "libboost-program-options-dev"; "libsctp-dev"; "libconfig++-dev";
    "libfftw3-dev"; "net-tools" ].

Definition GIT_REPO := "https://github.com/srsLTE/srsLTE.git".
Definition GIT_REPO_TAG := "release_20_10".

Definition SRC_PATH := "/srsLTE".
Definition BUILD_PATH := "/build".
Definition CONFIG_PATH := "/config".
Definition SERVICE_PATH := "/service".

Definition CONFIG_PATHS : list (string * string) :=
  [ ("enb", CONFIG_PATH ++ "/enb.conf");
    ("drb", CONFIG_PATH ++ "/drb.conf");
    ("rr", CONFIG_PATH ++ "/rr.conf");
    ("sib", CONFIG_PATH ++ "/sib.conf");
    ("sib.mbsfn", CONFIG_PATH ++ "/sib.mbsfn.conf");
    ("ue", CONFIG_PATH ++ "/ue.conf") ].

Definition CONFIG_ORIGIN_PATHS : list (string * string) :=
  [ ("enb", SRC_PATH ++ "/srsenb/enb.conf.example");
    ("drb", SRC_PATH ++ "/srsenb/drb.conf.example");
    ("rr", SRC_PATH ++ "/srsenb/rr.conf.example");
    ("sib", SRC_PATH ++ "/srsenb/sib.conf.example");
    ("sib.mbsfn", SRC_PATH ++ "/srsenb/sib.conf.mbsfn.example");
    ("ue", SRC_PATH ++ "/srsue/ue.conf.example") ].

Definition SRS_ENB_SERVICE := "srsenb".
Definition SRS_ENB_BINARY := BUILD_PATH ++ "/srsenb/src/srsenb".
Definition SRS_ENB_SERVICE_TEMPLATE := "./templates/srsenb.service".
Definition SRS_ENB_SERVICE_PATH := "/etc/systemd/system/srsenb.service".

Definition SRS_UE_SERVICE := "srsue".
Definition SRS_UE_BINARY := BUILD_PATH ++ "/srsue/src/srsue".
Definition SRS_UE_SERVICE_TEMPLATE := "./templates/srsue.service".
Definition SRS_UE_SERVICE_PATH := "/etc/systemd/system/srsue.service".

Definition SRS_ENB_UE_BUILD_COMMAND :=
  "cd " ++ BUILD_PATH ++ " && cmake " ++ SRC_PATH ++ " && make -j `nproc` srsenb srsue".

(** ** The stored state ([self._stored]) *)

Record Stored := mkStored {
  mme_addr : option string;
  bind_addr : option string;
  ue_usim_imsi : option string;
  ue_usim_k : option string;
  ue_usim_opc : option string;
  installed : bool;
  started : bool;
  ue_attached : bool
}.

(** [self._stored.set_default(...)] in [__init__]. *)
Definition set_default : Stored :=
  {| mme_addr := None; bind_addr := None;
     ue_usim_imsi := None; ue_usim_k := None; ue_usim_opc := None;
     installed := false; started := false; ue_attached := false |}.

Definition set_mme_addr (v : option string) (s : Stored) : Stored :=
  {| mme_addr := v; bind_addr := bind_addr s;
     ue_usim_imsi := ue_usim_imsi s; ue_usim_k := ue_usim_k s; ue_usim_opc := ue_usim_opc s;
     installed := installed s; started := started s; ue_attached := ue_attached s |}.

Definition set_bind_addr (v : option string) (s : Stored) : Stored :=
  {| mme_addr := mme_addr s; bind_addr := v;
     ue_usim_imsi := ue_usim_imsi s; ue_usim_k := ue_usim_k s; ue_usim_opc := ue_usim_opc s;
     installed := installed s; started := started s; ue_attached := ue_attached s |}.

Definition set_ue_usim_imsi (v : option string) (s : Stored) : Stored :=
  {| mme_addr := mme_addr s; bind_addr := bind_addr s;
     ue_usim_imsi := v; ue_usim_k := ue_usim_k s; ue_usim_opc := ue_usim_opc s;
     installed := installed s; started := started s; ue_attached := ue_attached s |}.

Definition set_ue_usim_k (v : option string) (s : Stored) : Stored :=
  {| mme_addr := mme_addr s; bind_addr := bind_addr s;
     ue_usim_imsi := ue_usim_imsi s; ue_usim_k := v; ue_usim_opc := ue_usim_opc s;
     installed := installed s; started := started s; ue_attached := ue_attached s |}.

Definition set_ue_usim_opc (v : option string) (s : Stored) : Stored :=
  {| mme_addr := mme_addr s; bind_addr := bind_addr s;
     ue_usim_imsi := ue_usim_imsi s; ue_usim_k := ue_usim_k s; ue_usim_opc := v;
     installed := installed s; started := started s; ue_attached := ue_attached s |}.

Definition set_installed (v : bool) (s : Stored) : Stored :=
  {| mme_addr := mme_addr s; bind_addr := bind_addr s;
     ue_usim_imsi := ue_usim_imsi s; ue_usim_k := ue_usim_k s; ue_usim_opc := ue_usim_opc s;
     installed := v; started := started s; ue_attached := ue_attached s |}.

Definition set_started (v : bool) (s : Stored) : Stored :=
  {| mme_addr := mme_addr s; bind_addr := bind_addr s;
     ue_usim_imsi := ue_usim_imsi s; ue_usim_k := ue_usim_k s; ue_usim_opc := ue_usim_opc s;
     installed := installed s; started := v; ue_attached := ue_attached s |}.

Definition set_ue_attached (v : bool) (s : Stored) : Stored :=
  {| mme_addr := mme_addr s; bind_addr := bind_addr s;
     ue_usim_imsi := ue_usim_imsi s; ue_usim_k := ue_usim_k s; ue_usim_opc := ue_usim_opc s;
     installed := installed s; started := started s; ue_attached := v |}.

(** ** Command builders

    [self.config] is a mapping from option names to values; a value is kept
    as the text an f-string prints for it, and [config.get] of an unknown
    option is [None], printed as [None]. *)

Section Commands.

Variable config : gmap string string.

Definition srsenb_command (st : Stored) : list string :=
  [SRS_ENB_BINARY]
  ++ (if Py.truthy (mme_addr st)
      then ["--enb.mme_addr=" ++ Py.str (mme_addr st)] else [])
  ++ (if Py.truthy (bind_addr st)
      then ["--enb.gtp_bind_addr=" ++ Py.str (bind_addr st);
            "--enb.s1c_bind_addr=" ++ Py.str (bind_addr st)] else [])
  ++ [ "--enb.name=" ++ Py.str (config !! "enb-name");
       "--enb.mcc=" ++ Py.str (config !! "enb-mcc");
       "--enb.mnc=" ++ Py.str (config !! "enb-mnc");
       "--enb_files.rr_config=" ++ Py.item CONFIG_PATHS "rr";
       "--enb_files.sib_config=" ++ Py.item CONFIG_PATHS "sib";
       "--enb_files.drb_config=" ++ Py.item CONFIG_PATHS "drb";
       Py.item CONFIG_PATHS "enb";
       "--rf.device_name=" ++ Py.str (config !! "enb-rf-device-name");
       "--rf.device_args=" ++ Py.str (config !! "enb-rf-device-args") ].

Definition _get_srsenb_command (st : Stored) : string :=
  Py.join " " (srsenb_command st).

Definition srsue_command (st : Stored) : list string :=
  [SRS_UE_BINARY]
  ++ (if Py.truthy (ue_usim_imsi st)
      then ["--usim.imsi=" ++ Py.str (ue_usim_imsi st);
            "--usim.k=" ++ Py.str (ue_usim_k st);
            "--usim.opc=" ++ Py.str (ue_usim_opc st)] else [])
  ++ [ "--usim.algo=" ++ Py.str (config !! "ue-usim-algo");
       "--nas.apn=" ++ Py.str (config !! "ue-nas-apn");
       "--rf.device_name=" ++ Py.str (config !! "ue-device-name");
       "--rf.device_args=" ++ Py.str (config !! "ue-device-args");
       Py.item CONFIG_PATHS "ue" ].

Definition _get_srsue_command (st : Stored) : string :=
  Py.join " " (srsue_command st).

End Commands.

(** The options of the unit test's harness (the charm's defaults). *)
Definition default_config : gmap string string :=
  list_to_map
    [ ("enb-name", "dummyENB01"); ("enb-mcc", "901"); ("enb-mnc", "70");
      ("enb-rf-device-name", "zmq");
      ("enb-rf-device-args",
       "fail_on_disconnect=true,tx_port=tcp://*:2000,rx_port=tcp://localhost:2001,id=enb,base_srate=23.04e6");
      ("ue-usim-algo", "milenage"); ("ue-nas-apn", "oai.ipv4");
      ("ue-device-name", "zmq");
      ("ue-device-args",
       "tx_port=tcp://*:2001,rx_port=tcp://localhost:2000,id=ue,base_srate=23.04e6") ].

(** ** The host: everything the charm calls but does not define

    [utils] and the libraries behind [open], [jinja2.Template] and
    [systemctl] are outside [charm.py].  A [Host] fixes, for the duration of
    one event, what each of them answers. *)

Inductive Status :=
| MaintenanceStatus (message : string)
| ActiveStatus (message : string).

(** Calls that act on the machine. *)
Inductive Call :=
| update_apt_cache
| install_apt_package (package : string)
| rmtree (path : string)
| mkdir (path : string)
| git_clone (repo output_folder branch : string) (depth : nat)
| shell (command : string)
| copy_files (origin destination : list (string * string))
| write_file (path content : string)
| systemctl_daemon_reload
| service_enable (name : string)
| service_start (name : string)
| service_stop (name : string)
| service_restart (name : string).

(** What an observer of one handler run sees, in order. *)
Inductive Effect :=
| SetUnitStatus (s : Status)
| Invoke (c : Call)
| SetResults (status message : string).

Inductive Exn :=
| CallError (c : Call)
| OpenError (path : string)
| TemplateError (template : string)
| KeyError (key : string).

Record Host := mkHost {
  config : gmap string string;
  (** does this call raise, after what the handler has done so far? *)
  raises : list Effect -> Call -> bool;
  (** [open(path, "r").read()]; [None] when the file cannot be opened *)
  read_text : string -> option string;
  (** [Template(text).render(command=command)]; [None] when it raises *)
  render : string -> string -> option string;
  service_active : string -> bool;
  is_ipv4 : option string -> bool;
  ip_from_iface : string -> option string;
  ip_from_default_iface : option string
}.

(** ** Handlers as computations

    A handler reads and writes the stored state, appends to the log of
    effects and either returns or raises.  A raise keeps the state and the
    log as they were at that point and skips the rest of the handler.  The
    log is threaded through, so that what a call answers may depend on what
    the handler has already done. *)

Inductive Outcome (A : Type) :=
| Returned (a : A)
| Raised (e : Exn).
Arguments Returned {A} a.
Arguments Raised {A} e.

Definition M (A : Type) : Type :=
  Stored -> list Effect -> Outcome A * Stored * list Effect.

Definition ret {A} (a : A) : M A := fun st l => (Returned a, st, l).

Definition bind {A B} (m : M A) (k : A -> M B) : M B :=
  fun st l =>
    match m st l with
    | (Returned a, st1, l1) => k a st1 l1
    | (Raised e, st1, l1) => (Raised e, st1, l1)
    end.

Definition raise {A} (e : Exn) : M A := fun st l => (Raised e, st, l).
Definition get : M Stored := fun st l => (Returned st, st, l).
Definition history : M (list Effect) := fun st l => (Returned l, st, l).
Definition modify (f : Stored -> Stored) : M unit := fun st l => (Returned tt, f st, l).
Definition emit (e : Effect) : M unit := fun st l => (Returned tt, st, (l ++ [e])%list).

(** A handler run on its own: the log starts empty. *)
Definition run {A} (m : M A) (st : Stored) : Outcome A * Stored * list Effect :=
  m st [].

Declare Scope charm_scope.
Delimit Scope charm_scope with charm.
Notation "x <- m ;; k" := (bind m (fun x => k))
  (at level 100, m at next level, k at level 200, right associativity) : charm_scope.
Notation "m ;; k" := (bind m (fun _ => k))
  (at level 100, k at level 200, right associativity) : charm_scope.
Local Open Scope charm_scope.

(** [for x in xs: body(x)]. *)
Fixpoint for_each {A} (xs : list A) (body : A -> M unit) : M unit :=
  match xs with
  | [] => ret tt
  | x :: xs' => body x ;; for_each xs' body
  end.

Definition outcome {A} (r : Outcome A * Stored * list Effect) : Outcome A := r.1.1.
Definition final {A} (r : Outcome A * Stored * list Effect) : Stored := r.1.2.
Definition log {A} (r : Outcome A * Stored * list Effect) : list Effect := r.2.

Record ActionEvent := mkAction { params : gmap string string }.

Record RelationChangedEvent := mkRelationChanged {
  event_unit : option string;
  relation_data : gmap string (gmap string string)
}.

(** [event.relation.data[event.unit]], when [event.unit in event.relation.data]. *)
Definition triggering_databag (event : RelationChangedEvent) : option (gmap string string) :=
  match event_unit event with
  | Some u => relation_data event !! u
  | None => None
  end.

Section Charm.

Variable h : Host.

(** A call into [utils]: it is logged, then it raises or returns. *)
Definition call (c : Call) : M unit :=
  before <- history ;;
  emit (Invoke c) ;;
  if raises h before c then raise (CallError c) else ret tt.

(** [self.unit.status = s]. *)
Definition set_status (s : Status) : M unit := emit (SetUnitStatus s).

(** [event.params[key]]. *)
Definition param (event : ActionEvent) (key : string) : M string :=
  match params event !! key with
  | Some v => ret v
  | None => raise (KeyError key)
  end.

Definition _get_current_status (st : Stored) : Status :=
  let status_msg := "" in
  let status_msg := if installed st then "SW installed." else status_msg in
  let status_msg :=
    if started st && service_active h SRS_ENB_SERVICE then
      let status_msg := "srsenb started. " in
      let status_msg :=
        if Py.truthy (mme_addr st)
        then status_msg ++ "mme: " ++ Py.str (mme_addr st) ++ ". "
        else status_msg in
      if ue_attached st && service_active h SRS_UE_SERVICE
      then status_msg ++ "ue attached. "
      else status_msg
    else status_msg in
  ActiveStatus status_msg.

(** [self.unit.status = self._get_current_status()]. *)
Definition update_status : M unit :=
  st <- get ;; set_status (_get_current_status st).

Definition _get_bind_address : option string :=
  let bind_address_subnet := config h !! "bind-address-subnet" in
  if Py.truthy bind_address_subnet
  then ip_from_iface h (Py.str bind_address_subnet)
  else ip_from_default_iface h.

Definition _configure_service (command service_template service_path : string) : M unit :=
  match read_text h service_template with
  | None => raise (OpenError service_template)
  | Some text =>
      match render h text command with
      | None => raise (TemplateError service_template)
      | Some service_content =>
          call (write_file service_path service_content) ;;
          call systemctl_daemon_reload
      end
  end.

Definition _configure_srsenb_service : M unit :=
  st <- get ;;
  _configure_service (_get_srsenb_command (config h) st)
    SRS_ENB_SERVICE_TEMPLATE SRS_ENB_SERVICE_PATH.

Definition _configure_srsue_service : M unit :=
  st <- get ;;
  _configure_service (_get_srsue_command (config h) st)
    SRS_UE_SERVICE_TEMPLATE SRS_UE_SERVICE_PATH.

(** [shutil.rmtree(..., ignore_errors=True)] never raises; [os.mkdir] may. *)
Definition _reset_environment : M unit :=
  emit (Invoke (rmtree SRC_PATH)) ;;
  emit (Invoke (rmtree BUILD_PATH)) ;;
  emit (Invoke (rmtree CONFIG_PATH)) ;;
  emit (Invoke (rmtree SERVICE_PATH)) ;;
  call (mkdir SRC_PATH) ;;
  call (mkdir BUILD_PATH) ;;
  call (mkdir CONFIG_PATH) ;;
  call (mkdir SERVICE_PATH).

Definition _on_install : M unit :=
  set_status (MaintenanceStatus "Installing apt packages") ;;
  call update_apt_cache ;;
  for_each APT_REQUIREMENTS (fun package => call (install_apt_package package)) ;;
  set_status (MaintenanceStatus "Preparing the environment") ;;
  _reset_environment ;;
  set_status (MaintenanceStatus "Downloading srsLTE from Github") ;;
  call (git_clone GIT_REPO SRC_PATH GIT_REPO_TAG 1) ;;
  set_status (MaintenanceStatus "Building srsLTE") ;;
  call (shell SRS_ENB_UE_BUILD_COMMAND) ;;
  set_status (MaintenanceStatus "Generating configuration files") ;;
  call (copy_files CONFIG_ORIGIN_PATHS CONFIG_PATHS) ;;
  set_status (MaintenanceStatus "Generating systemd files") ;;
  _configure_srsenb_service ;;
  _configure_srsue_service ;;
  call (service_enable SRS_ENB_SERVICE) ;;
  modify (set_installed true).

Definition _on_start : M unit :=
  set_status (MaintenanceStatus "Starting srsenb") ;;
  call (service_start SRS_ENB_SERVICE) ;;
  modify (set_started true) ;;
  update_status.

Definition _on_stop : M unit :=
  _reset_environment ;;
  call (service_stop SRS_ENB_SERVICE) ;;
  modify (set_started false) ;;
  update_status.

Definition _on_config_changed : M unit :=
  modify (set_bind_addr _get_bind_address) ;;
  _configure_srsenb_service ;;
  (st <- get ;;
   if started st
   then set_status (MaintenanceStatus "Reloading srsenb") ;;
        call (service_restart SRS_ENB_SERVICE)
   else ret tt) ;;
  update_status.

Definition _on_update_status : M unit := update_status.

Definition _on_attach_ue_action (event : ActionEvent) : M unit :=
  imsi <- param event "usim-imsi" ;;
  modify (set_ue_usim_imsi (Some imsi)) ;;
  k <- param event "usim-k" ;;
  modify (set_ue_usim_k (Some k)) ;;
  opc <- param event "usim-opc" ;;
  modify (set_ue_usim_opc (Some opc)) ;;
  _configure_srsue_service ;;
  call (service_restart SRS_UE_SERVICE) ;;
  modify (set_ue_attached true) ;;
  update_status ;;
  emit (SetResults "ok" "Attached successfully").

Definition _on_detach_ue_action : M unit :=
  modify (set_ue_usim_imsi None) ;;
  modify (set_ue_usim_k None) ;;
  modify (set_ue_usim_opc None) ;;
  call (service_stop SRS_UE_SERVICE) ;;
  _configure_srsue_service ;;
  modify (set_ue_attached false) ;;
  update_status ;;
  emit (SetResults "ok" "Detached successfully").

Definition _on_remove_default_gw_action : M unit :=
  call (shell "route del default") ;;
  emit (SetResults "ok" "Default route removed!").

Definition _mme_relation_changed (event : RelationChangedEvent) : M unit :=
  match triggering_databag event with
  | Some databag =>
      let mme_addr := databag !! "mme-addr" in
      if negb (is_ipv4 h mme_addr)
      then ret tt
      else
        modify (set_mme_addr mme_addr) ;;
        _configure_srsenb_service ;;
        (st <- get ;;
         if started st
         then set_status (MaintenanceStatus "Reloading srsenb") ;;
              call (service_restart SRS_ENB_SERVICE)
         else ret tt) ;;
        update_status
  | None => update_status
  end.

End Charm.

(** ** Events and the controller loop

    One process handles one event: the framework builds the charm, emits the
    event and commits the stored state once the handler has returned.  A
    handler that raises ends the process before the commit, so the next event
    starts from the state the failed one started from. *)

Inductive Event :=
| InstallEvent
| StartEvent
| StopEvent
| ConfigChangedEvent
| UpdateStatusEvent
| AttachUeAction (event : ActionEvent)
| DetachUeAction
| RemoveDefaultGwAction
| MmeRelationChangedEvent (event : RelationChangedEvent).

Definition handler (h : Host) (ev : Event) : M unit :=
  match ev with
  | InstallEvent => _on_install h
  | StartEvent => _on_start h
  | StopEvent => _on_stop h
  | ConfigChangedEvent => _on_config_changed h
  | UpdateStatusEvent => _on_update_status h
  | AttachUeAction event => _on_attach_ue_action h event
  | DetachUeAction => _on_detach_ue_action h
  | RemoveDefaultGwAction => _on_remove_default_gw_action h
  | MmeRelationChangedEvent event => _mme_relation_changed h event
  end.

Definition committed (h : Host) (ev : Event) (st : Stored) : Stored :=
  match outcome (run (handler h ev) st) with
  | Returned _ => final (run (handler h ev) st)
  | Raised _ => st
  end.

(** States the controller can be in between two events. *)
Inductive reachable : Stored -> Prop :=
| reachable_init : reachable set_default
| reachable_step h ev st : reachable st -> reachable (committed h ev st).

(** The same, when Start is only ever delivered to an installed unit. *)
Inductive reachable_start_after_install : Stored -> Prop :=
| rsai_init : reachable_start_after_install set_default
| rsai_step h ev st :
    reachable_start_after_install st ->
    (ev = StartEvent -> installed st = true) ->
    reachable_start_after_install (committed h ev st).

(** ** The template engine, as far as the charm uses it

    [jinja2.Template(text).render(command=command)] with the library's
    defaults, for templates made of literal text and [{{ name }}]
    expressions.  With the default [Undefined], a name that the context does
    not define prints as the empty string; one trailing newline of the
    template is dropped.  The model answers in three ways: the text
    rendered, a syntax error (an expression that is never closed), or
    [Unmodelled] for every text it does not cover: statements, comments,
    filters, literals, names with a meaning of their own, carriage returns.
    About an [Unmodelled] text it says nothing. *)

Module Jinja.

Inductive Result (A : Type) :=
| Done (a : A)
| TemplateSyntaxError
| Unmodelled.
Arguments Done {A} a.
Arguments TemplateSyntaxError {A}.
Arguments Unmodelled {A}.

Definition on_done {A B} (f : A -> B) (r : Result A) : Result B :=
  match r with
  | Done a => Done (f a)
  | TemplateSyntaxError => TemplateSyntaxError
  | Unmodelled => Unmodelled
  end.

Inductive Node :=
| TemplateData (text : string)
| Name (name : string).

Definition is_digit (c : ascii) : bool :=
  let n := nat_of_ascii c in Nat.leb 48 n && Nat.leb n 57.

Definition is_name_char (c : ascii) : bool :=
  let n := nat_of_ascii c in
  (Nat.leb 65 n && Nat.leb n 90) || (Nat.leb 97 n && Nat.leb n 122)
  || Nat.eqb n 95 || is_digit c.

Fixpoint skip_spaces (s : string) : string :=
  match s with
  | String " " rest => skip_spaces rest
  | _ => s
  end.

Fixpoint take_name (s : string) : string * string :=
  match s with
  | String c rest =>
      if is_name_char c
      then let (name, tail) := take_name rest in (String c name, tail)
      else ("", s)
  | "" => ("", "")
  end.

(** Names that are not plain variables: literals, operators, the names the
    engine gives a meaning of its own ([self], [super], [loop], ...), its
    statement words and its default globals.  An expression on one of them
    is left [Unmodelled]. *)
Definition reserved : list string :=
  [ "true"; "false"; "none"; "True"; "False"; "None";
    "and"; "or"; "not"; "in"; "is"; "if"; "else"; "elif";
    "self"; "super"; "loop"; "varargs"; "kwargs"; "caller";
    "for"; "endfor"; "endif"; "block"; "endblock"; "extends"; "include";
    "import"; "from"; "as"; "with"; "without"; "context"; "set"; "macro";
    "endmacro"; "call"; "endcall"; "filter"; "endfilter"; "raw"; "endraw";
    "recursive"; "ignore"; "missing"; "scoped"; "required"; "do";
    "autoescape"; "trans"; "pluralize"; "_"; "gettext"; "ngettext";
    "range"; "dict"; "lipsum"; "cycler"; "joiner"; "namespace" ].

(** The text between [{{] and [}}] when it is a single plain name. *)
Definition parse_name (inner : string) : option string :=
  let (name, tail) := take_name (skip_spaces inner) in
  match name with
  | "" => None
  | String c _ =>
      if is_digit c then None
      else if negb (String.eqb (skip_spaces tail) "") then None
      else if existsb (String.eqb name) reserved then None
      else Some name
  end.

Inductive Mode :=
| InData (seen : string)
| InExpression (seen : string).

Definition snoc (s : string) (c : ascii) : string := s ++ String c "".

Definition data (seen : string) (rest : list Node) : list Node :=
  match seen with
  | "" => rest
  | _ => TemplateData seen :: rest
  end.

Fixpoint lex (mode : Mode) (s : string) : Result (list Node) :=
  match s with
  | "" =>
      match mode with
      | InData seen => Done (data seen [])
      | InExpression _ => TemplateSyntaxError
      end
  | String c rest =>
      match mode with
      | InData seen =>
          match c, rest with
          | "{"%char, String "{"%char rest' =>
              on_done (data seen) (lex (InExpression "") rest')
          | "{"%char, String "%"%char _ => Unmodelled
          | "{"%char, String "#"%char _ => Unmodelled
          | _, _ => lex (InData (snoc seen c)) rest
          end
      | InExpression seen =>
          match c, rest with
          | "}"%char, String "}"%char rest' =>
              match parse_name seen with
              | Some name => on_done (cons (Name name)) (lex (InData "") rest')
              | None => Unmodelled
              end
          | _, _ => lex (InExpression (snoc seen c)) rest
          end
      end
  end.

(** [keep_trailing_newline=False]. *)
Fixpoint strip_trailing_newline (s : string) : string :=
  match s with
  | "" => ""
  | String c "" => if Ascii.eqb c "010" then "" else s
  | String c rest => String c (strip_trailing_newline rest)
  end.

(** Does the text have a carriage return?  The engine rewrites those. *)
Fixpoint has_carriage_return (s : string) : bool :=
  match s with
  | "" => false
  | String c rest => Ascii.eqb c "013" || has_carriage_return rest
  end.

Definition Template (text : string) : Result (list Node) :=
  if has_carriage_return text then Unmodelled
  else lex (InData "") (strip_trailing_newline text).

(** The value printed for [name] in the context [dict(command=command)]. *)
Definition resolve (command : string) (name : string) : string :=
  if String.eqb name "command" then command else "".

Fixpoint render_nodes (command : string) (nodes : list Node) : string :=
  match nodes with
  | [] => ""
  | TemplateData text :: rest => text ++ render_nodes command rest
  | Name name :: rest => resolve command name ++ render_nodes command rest
  end.

Definition render (text command : string) : Result string :=
  on_done (render_nodes command) (Template text).


(** The renderer of the concrete hosts below: it returns the text the model
    renders and raises otherwise.  On a template with a syntax error that
    is the engine's answer; on an [Unmodelled] template it is only this
    host's, and the hosts are given no such template. *)
Definition answer (text command : string) : option string :=
  match render text command with
  | Done rendered => Some rendered
  | TemplateSyntaxError => None
  | Unmodelled => None
  end.

End Jinja.

(** ** Address validation *)

Module Utils.

(** [s.split(sep)]. *)
Fixpoint split (sep : ascii) (s : string) : list string :=
  match s with
  | "" => [""]
  | String c rest =>
      if Ascii.eqb c sep then "" :: split sep rest
      else match split sep rest with
           | piece :: pieces => String c piece :: pieces
           | [] => [String c ""]
           end
  end.

Fixpoint decimal (acc : nat) (s : string) : option nat :=
  match s with
  | "" => Some acc
  | String c rest =>
      if Jinja.is_digit c
      then decimal (10 * acc + (nat_of_ascii c - 48)) rest
      else None
  end.

Definition octet (s : string) : bool :=
  match s with
  | "" => false
  | _ =>
      Nat.leb (String.length s) 3
      && match decimal 0 s with
         | Some n => Nat.leb n 255
         | None => false
         end
  end.

(** Modelled from the spec: [utils.is_ipv4], which the charm imports but
    whose source is not among the files at hand.  The spec gives
    [isIPv4(text) -> boolean], true exactly for IPv4 literals: here four
    decimal octets separated by dots.  Anything that is not a string is
    not an address.  The handlers never use this definition: they read
    the validator from the [Host]; only the concrete hosts below use it. *)
Definition is_ipv4 (ip : option string) : bool :=
  match ip with
  | None => false
  | Some s =>
      match split "." s with
      | [a; b; c; d] => octet a && octet b && octet c && octet d
      | _ => false
      end
  end.

End Utils.

(** ** Concrete hosts *)

Definition srsenb_service_template : string :=
"[Unit]
Description=Srs EnodeB Service
After=network.target
StartLimitIntervalSec=0
[Service]
Type=simple
Restart=always
RestartSec=1
User=root
ExecStart={{ command }}

[Install]
WantedBy=multi-user.target
".

Definition srsue_service_template : string :=
"[Unit]
Description=Srs User Emulator Service
After=network.target
StartLimitIntervalSec=0
[Service]
Type=simple
Restart=always
RestartSec=1
ExecStart={{ command }}
User=root
KillSignal=SIGINT
TimeoutStopSec=10
ExecStopPost=service srsenb restart

[Install]
WantedBy=multi-user.target
".

Definition templates (path : string) : option string :=
  if String.eqb path SRS_ENB_SERVICE_TEMPLATE then Some srsenb_service_template
  else if String.eqb path SRS_UE_SERVICE_TEMPLATE then Some srsue_service_template
  else None.

(** Every call succeeds and both services run. *)
Definition healthy : Host :=
  {| config := default_config;
     raises := fun _ _ => false;
     read_text := templates;
     render := Jinja.answer;
     service_active := fun _ => true;
     is_ipv4 := Utils.is_ipv4;
     ip_from_iface := fun _ => Some "192.168.1.5";
     ip_from_default_iface := Some "10.0.0.7" |}.

Definition is_supervisor_call (c : Call) : bool :=
  match c with
  | service_start _ | service_stop _ | service_restart _ => true
  | _ => false
  end.

(** [systemctl start/stop/restart] raise; everything else is as in [healthy]. *)
Definition supervisor_down : Host :=
  {| config := default_config;
     raises := fun _ c => is_supervisor_call c;
     read_text := templates;
     render := Jinja.answer;
     service_active := fun _ => false;
     is_ipv4 := Utils.is_ipv4;
     ip_from_iface := fun _ => Some "192.168.1.5";
     ip_from_default_iface := Some "10.0.0.7" |}.

(** ** Reading a run *)

(** The files a run wrote, in order. *)
Definition written (l : list Effect) : list (string * string) :=
  flat_map (fun e => match e with
                     | Invoke (write_file path content) => [(path, content)]
                     | _ => []
                     end) l.

(** The services a run asked the supervisor to restart, in order. *)
Definition restarted (l : list Effect) : list string :=
  flat_map (fun e => match e with
                     | Invoke (service_restart name) => [name]
                     | _ => []
                     end) l.

(** [wp m Q st l] says that [Q] holds of the outcome, the final state and
    the log of running [m] from the state [st] and the log [l]. *)
Definition wp {A} (m : M A) (Q : Outcome A -> Stored -> list Effect -> Prop)
    (st : Stored) (l : list Effect) : Prop :=
  Q (outcome (m st l)) (final (m st l)) (log (m st l)).

(** ** What each handler does to the state *)

(** The state a handler leaves when it returns. *)
Definition mutation (h : Host) (ev : Event) (st : Stored) : Stored :=
  match ev with
  | InstallEvent => set_installed true st
  | StartEvent => set_started true st
  | StopEvent => set_started false st
  | ConfigChangedEvent => set_bind_addr (_get_bind_address h) st
  | UpdateStatusEvent => st
  | AttachUeAction event =>
      set_ue_attached true
        (set_ue_usim_opc (params event !! "usim-opc")
           (set_ue_usim_k (params event !! "usim-k")
              (set_ue_usim_imsi (params event !! "usim-imsi") st)))
  | DetachUeAction =>
      set_ue_attached false
        (set_ue_usim_opc None (set_ue_usim_k None (set_ue_usim_imsi None st)))
  | RemoveDefaultGwAction => st
  | MmeRelationChangedEvent event =>
      match triggering_databag event with
      | Some databag =>
          if is_ipv4 h (databag !! "mme-addr")
          then set_mme_addr (databag !! "mme-addr") st
          else st
      | None => st
      end
  end.

(** The state a handler leaves behind when the supervisor call it makes
    raises: the assignments written before the call, none of those after. *)
Definition interrupted (h : Host) (ev : Event) (st : Stored) : Stored :=
  match ev with
  | ConfigChangedEvent => set_bind_addr (_get_bind_address h) st
  | AttachUeAction event =>
      set_ue_usim_opc (params event !! "usim-opc")
        (set_ue_usim_k (params event !! "usim-k")
           (set_ue_usim_imsi (params event !! "usim-imsi") st))
  | DetachUeAction =>
      set_ue_usim_opc None (set_ue_usim_k None (set_ue_usim_imsi None st))
  | MmeRelationChangedEvent event =>
      match triggering_databag event with
      | Some databag => set_mme_addr (databag !! "mme-addr") st
      | None => st
      end
  | _ => st
  end.

(** ** Vocabulary of the statements *)

Definition filled (o : option string) : nat :=
  match o with Some _ => 1 | None => 0 end.

(** How many of the three subscriber fields hold a value. *)
Definition populated (st : Stored) : nat :=
  filled (ue_usim_imsi st) + filled (ue_usim_k st) + filled (ue_usim_opc st).

(** The arguments of a command that start with [flag]. *)
Definition flag_args (flag : string) (args : list string) : list string :=
  List.filter (Py.startswith flag) args.

Definition has_flag (flag : string) (args : list string) : Prop :=
  exists arg, In arg args /\ Py.startswith flag arg = true.

(** An optional field is set when it holds a non-empty text; this is the
    test the builders make ([if self._stored.mme_addr:]). *)
Definition is_set (o : option string) : Prop :=
  exists a, o = Some a /\ a <> "".


(** ** Concrete events, states and templates *)

Definition mme_databag (addr : string) : gmap string string :=
  {[ "mme-addr" := addr ]}.

(** A relation-changed event triggered by unit [mme/0] carrying [addr]. *)
Definition mme_changed (addr : string) : RelationChangedEvent :=
  {| event_unit := Some "mme/0";
     relation_data := {[ "mme/0" := mme_databag addr ]} |}.

(** A relation-changed event whose triggering unit has no data bag. *)
Definition mme_changed_without_data : RelationChangedEvent :=
  {| event_unit := Some "mme/0";
     relation_data := {[ "srs-enb-ue/0" := ∅ ]} |}.

(** A started unit that already knows its peer. *)
Definition serving : Stored :=
  {| mme_addr := Some "10.0.0.1"; bind_addr := None;
     ue_usim_imsi := None; ue_usim_k := None; ue_usim_opc := None;
     installed := true; started := true; ue_attached := false |}.

Definition attach_ue : ActionEvent :=
  {| params := list_to_map
       [ ("usim-imsi", "001010123456789");
         ("usim-k", "00112233445566778899aabbccddeeff");
         ("usim-opc", "63bfa50ee6523365ff14c1f45f88737d") ] |}.

Definition installed_then_started : Stored :=
  committed healthy StartEvent (committed healthy InstallEvent set_default).

(** A unit template that mentions a placeholder the charm never defines. *)
Definition template_with_extra_placeholder : string :=
"[Service]
ExecStart={{ command }} {{ extra_args }}
".

(** A unit template whose expression is never closed. *)
Definition template_unclosed : string :=
"[Service]
ExecStart={{ command
".

Definition with_templates (text : string) : Host :=
  {| config := default_config;
     raises := fun _ _ => false;
     read_text := fun _ => Some text;
     render := Jinja.answer;
     service_active := fun _ => true;
     is_ipv4 := Utils.is_ipv4;
     ip_from_iface := fun _ => Some "192.168.1.5";
     ip_from_default_iface := Some "10.0.0.7" |}.

(** A unit that has learned both addresses. *)
Definition addressed : Stored :=
  set_bind_addr (Some "192.168.1.5") serving.



(** A unit with both addresses and an attached subscriber. *)
Definition attached : Stored :=
  committed healthy (AttachUeAction attach_ue) addressed.

(** ** Runs under one validator *)

(** States the controller can be in between two events when every host it
    ran on answers address validation as [valid] does. *)
Inductive reachable_validating (valid : option string -> bool) : Stored -> Prop :=
| rv_init : reachable_validating valid set_default
| rv_step h ev st :
    reachable_validating valid st ->
    (forall a, is_ipv4 h a = valid a) ->
    reachable_validating valid (committed h ev st).

(** ** Projections of a log and the call sequences of the handlers *)

(** The calls a run made, in order. *)
Definition invoked (l : list Effect) : list Call :=
  flat_map (fun e => match e with Invoke c => [c] | _ => [] end) l.

(** The unit statuses a run set, in order. *)
Definition statuses (l : list Effect) : list Status :=
  flat_map (fun e => match e with SetUnitStatus s => [s] | _ => [] end) l.

(** The services a run asked the supervisor to stop, in order. *)
Definition stopped (l : list Effect) : list string :=
  flat_map (fun e => match e with
                     | Invoke (service_stop name) => [name]
                     | _ => []
                     end) l.

(** The directory removals that open [_reset_environment]. *)
Definition removals : list Call :=
  [rmtree SRC_PATH; rmtree BUILD_PATH; rmtree CONFIG_PATH; rmtree SERVICE_PATH].

(** All the calls of [_reset_environment]. *)
Definition reset_calls : list Call :=
  removals ++ [mkdir SRC_PATH; mkdir BUILD_PATH; mkdir CONFIG_PATH; mkdir SERVICE_PATH].

(** All the calls of [_on_install], given the two unit texts it writes. *)
Definition install_calls (srsenb_unit srsue_unit : string) : list Call :=
  [update_apt_cache]
  ++ List.map install_apt_package APT_REQUIREMENTS
  ++ reset_calls
  ++ [ git_clone GIT_REPO SRC_PATH GIT_REPO_TAG 1;
       shell SRS_ENB_UE_BUILD_COMMAND;
       copy_files CONFIG_ORIGIN_PATHS CONFIG_PATHS;
       write_file SRS_ENB_SERVICE_PATH srsenb_unit;
       systemctl_daemon_reload;
       write_file SRS_UE_SERVICE_PATH srsue_unit;
       systemctl_daemon_reload;
       service_enable SRS_ENB_SERVICE ].

Definition install_statuses : list Status :=
  [ MaintenanceStatus "Installing apt packages";
    MaintenanceStatus "Preparing the environment";
    MaintenanceStatus "Downloading srsLTE from Github";
    MaintenanceStatus "Building srsLTE";
    MaintenanceStatus "Generating configuration files";
    MaintenanceStatus "Generating systemd files" ].

(** The restart that ConfigChanged and the relation handler make on a
    started unit. *)
Definition reload_effects (st : Stored) : list Effect :=
  if started st
  then [ SetUnitStatus (MaintenanceStatus "Reloading srsenb");
         Invoke (service_restart SRS_ENB_SERVICE) ]
  else [].

(** Every call succeeds but the supervisor reports no service as live. *)
Definition asleep : Host :=
  {| config := default_config;
     raises := fun _ _ => false;
     read_text := templates;
     render := Jinja.answer;
     service_active := fun _ => false;
     is_ipv4 := Utils.is_ipv4;
     ip_from_iface := fun _ => Some "192.168.1.5";
     ip_from_default_iface := None |}.

(** An attach action whose identity is the empty text. *)
Definition attach_ue_empty_identity : ActionEvent :=
  {| params := list_to_map
       [ ("usim-imsi", "");
         ("usim-k", "00112233445566778899aabbccddeeff");
         ("usim-opc", "63bfa50ee6523365ff14c1f45f88737d") ] |}.

(** The services a run asked the supervisor to start, in order. *)
Definition begun (l : list Effect) : list string :=
  flat_map (fun e => match e with
                     | Invoke (service_start name) => [name]
                     | _ => []
                     end) l.

(** The services a run enabled, in order. *)
Definition enabled (l : list Effect) : list string :=
  flat_map (fun e => match e with
                     | Invoke (service_enable name) => [name]
                     | _ => []
                     end) l.

(** ** Texts without spaces *)

(** [c in s]. *)
Fixpoint has_char (c : ascii) (s : string) : bool :=
  match s with
  | "" => false
  | String a rest => Ascii.eqb a c || has_char c rest
  end.

(** The text an f-string prints for the field has no space in it. *)
Definition spaceless (o : option string) : Prop :=
  has_char " " (Py.str o) = false.

(** No value of the configuration has a space in it. *)
Definition spaceless_config (cfg : gmap string string) : Prop :=
  map_Forall (fun _ value => has_char " " value = false) cfg.

(** ** Flags of the command text *)

(** The options [_get_srsenb_command] prints. *)
Definition enb_options : list string :=
  [ "enb-name"; "enb-mcc"; "enb-mnc"; "enb-rf-device-name"; "enb-rf-device-args" ].

(** One of the words of the command, split at its spaces, starts with
    [flag]. *)
Definition command_has_flag (flag command : string) : Prop :=
  has_flag flag (Utils.split " " command).

(** The default options, but with a name that has a space and a flag in it. *)
Definition injecting_config : gmap string string :=
  <[ "enb-name" := "x --enb.mme_addr=6.6.6.6" ]> default_config.

(** * Properties *)

(** ** The unit test's golden output *)

Example enb_default :
  _get_srsenb_command default_config set_default =
  "/build/srsenb/src/srsenb --enb.name=dummyENB01 --enb.mcc=901 --enb.mnc=70 --enb_files.rr_config=/config/rr.conf --enb_files.sib_config=/config/sib.conf --enb_files.drb_config=/config/drb.conf /config/enb.conf --rf.device_name=zmq --rf.device_args=fail_on_disconnect=true,tx_port=tcp://*:2000,rx_port=tcp://localhost:2001,id=enb,base_srate=23.04e6".
Proof. vm_compute. reflexivity. Qed.

Example ue_default :
  _get_srsue_command default_config set_default =
  "/build/srsue/src/srsue --usim.algo=milenage --nas.apn=oai.ipv4 --rf.device_name=zmq --rf.device_args=tx_port=tcp://*:2001,rx_port=tcp://localhost:2000,id=ue,base_srate=23.04e6 /config/ue.conf".
Proof. vm_compute. reflexivity. Qed.

Example render_one_placeholder :
  Jinja.render "[Service]
ExecStart={{ command }}

[Install]
WantedBy=multi-user.target
" "/build/srsenb/src/srsenb /config/enb.conf"
  = Jinja.Done "[Service]
ExecStart=/build/srsenb/src/srsenb /config/enb.conf

[Install]
WantedBy=multi-user.target".
Proof. vm_compute. reflexivity. Qed.

(** Every template the concrete hosts serve is covered by the model: three
    render, the fourth is a syntax error. *)
Example served_templates_are_modelled :
  List.map (fun text => Jinja.on_done (fun _ => tt) (Jinja.Template text))
    [ srsenb_service_template; srsue_service_template;
      template_with_extra_placeholder; template_unclosed ]
  = [ Jinja.Done tt; Jinja.Done tt; Jinja.Done tt; Jinja.TemplateSyntaxError ].
Proof. vm_compute. reflexivity. Qed.

(** What the model leaves alone: the name [self], a filter, a comment, a
    statement and a carriage return. *)
Example unmodelled_templates :
  List.map (fun text => Jinja.render text "srsenb")
    [ "A{{ self }}B"; "{{ command | upper }}"; "{# note #}";
      "{% if command %}x{% endif %}"; String "013" "" ]
  = [ Jinja.Unmodelled; Jinja.Unmodelled; Jinja.Unmodelled;
      Jinja.Unmodelled; Jinja.Unmodelled ].
Proof. vm_compute. reflexivity. Qed.

Example is_ipv4_yes : Utils.is_ipv4 (Some "10.0.0.1") = true.
Proof. reflexivity. Qed.

Example is_ipv4_no :
  map Utils.is_ipv4 [Some "10.0.0"; Some "10.0.0.256"; Some "mme.local"; Some ""; None]
  = [false; false; false; false; false].
Proof. reflexivity. Qed.

(** The unit test's golden unit files, produced by Install on a fresh unit. *)
Example install_writes_units :
  let r := run (_on_install healthy) set_default in
  outcome r = Returned tt
  /\ written (log r) =
     [ (SRS_ENB_SERVICE_PATH,
"[Unit]
Description=Srs EnodeB Service
After=network.target
StartLimitIntervalSec=0
[Service]
Type=simple
Restart=always
RestartSec=1
User=root
ExecStart=/build/srsenb/src/srsenb --enb.name=dummyENB01 --enb.mcc=901 --enb.mnc=70 --enb_files.rr_config=/config/rr.conf --enb_files.sib_config=/config/sib.conf --enb_files.drb_config=/config/drb.conf /config/enb.conf --rf.device_name=zmq --rf.device_args=fail_on_disconnect=true,tx_port=tcp://*:2000,rx_port=tcp://localhost:2001,id=enb,base_srate=23.04e6

[Install]
WantedBy=multi-user.target");
       (SRS_UE_SERVICE_PATH,
"[Unit]
Description=Srs User Emulator Service
After=network.target
StartLimitIntervalSec=0
[Service]
Type=simple
Restart=always
RestartSec=1
ExecStart=/build/srsue/src/srsue --usim.algo=milenage --nas.apn=oai.ipv4 --rf.device_name=zmq --rf.device_args=tx_port=tcp://*:2001,rx_port=tcp://localhost:2000,id=ue,base_srate=23.04e6 /config/ue.conf
User=root
KillSignal=SIGINT
TimeoutStopSec=10
ExecStopPost=service srsenb restart

[Install]
WantedBy=multi-user.target") ].
Proof. vm_compute. split; reflexivity. Qed.

(** ** Reasoning about handler runs

    One rule per primitive lets a proof walk through a handler statement by
    statement. *)

Lemma wp_ret {A} (a : A) Q st l : Q (Returned a) st l -> wp (ret a) Q st l.
Proof. exact id. Qed.

Lemma wp_raise {A} (e : Exn) (Q : Outcome A -> _) st l :
  Q (Raised e) st l -> wp (raise e) Q st l.
Proof. exact id. Qed.

Lemma wp_get Q st l : Q (Returned st) st l -> wp get Q st l.
Proof. exact id. Qed.

Lemma wp_modify f Q st l : Q (Returned tt) (f st) l -> wp (modify f) Q st l.
Proof. exact id. Qed.

Lemma wp_emit e Q st l : Q (Returned tt) st (l ++ [e])%list -> wp (emit e) Q st l.
Proof. exact id. Qed.

Lemma wp_bind {A B} (m : M A) (k : A -> M B) Q st l :
  wp m (fun o st1 l1 =>
          match o with
          | Returned a => wp (k a) Q st1 l1
          | Raised e => Q (Raised e) st1 l1
          end) st l ->
  wp (bind m k) Q st l.
Proof.
  unfold wp, bind, outcome, final, log.
  destruct (m st l) as [[[a | e] st1] l1]; simpl; exact id.
Qed.

Lemma wp_call h c Q st l :
  (raises h l c = true -> Q (Raised (CallError c)) st (l ++ [Invoke c])%list) ->
  (raises h l c = false -> Q (Returned tt) st (l ++ [Invoke c])%list) ->
  wp (call h c) Q st l.
Proof.
  intros Hraise Hret. unfold wp, call, bind, history, emit, raise, ret; simpl.
  destruct (raises h l c); simpl; auto.
Qed.

Ltac wp_step :=
  lazymatch goal with
  | |- wp (bind _ _) _ _ _ => apply wp_bind
  | |- wp (ret _) _ _ _ => apply wp_ret
  | |- wp (raise _) _ _ _ => apply wp_raise
  | |- wp get _ _ _ => apply wp_get
  | |- wp (modify _) _ _ _ => apply wp_modify
  | |- wp (emit _) _ _ _ => apply wp_emit
  | |- wp (set_status _) _ _ _ => apply wp_emit
  | |- wp (call _ _) _ _ _ => apply wp_call; intros ?
  | |- wp (if negb ?b then _ else _) _ _ _ => destruct b eqn:?; cbn [negb]
  | |- wp (if ?b then _ else _) _ _ _ => destruct b eqn:?
  | |- wp (match ?x with _ => _ end) _ _ _ => destruct x eqn:?
  end; cbn beta iota.

Ltac wp_unfold :=
  unfold _on_install, _on_start, _on_stop, _on_config_changed,
    _on_update_status, _on_attach_ue_action, _on_detach_ue_action,
    _on_remove_default_gw_action, _mme_relation_changed,
    update_status, _reset_environment,
    _configure_srsenb_service, _configure_srsue_service, _configure_service,
    param, APT_REQUIREMENTS;
  cbn [for_each].

Ltac wp_walk := wp_unfold; repeat wp_step.

(** ** State changes of the handlers *)

Lemma handler_mutation h ev st :
  outcome (run (handler h ev) st) = Returned tt ->
  final (run (handler h ev) st) = mutation h ev st.
Proof.
  change (wp (handler h ev)
            (fun o s _ => o = Returned tt -> s = mutation h ev st) st []).
  destruct ev; unfold handler, mutation; wp_walk;
    try discriminate; try reflexivity.
Qed.

Lemma attach_needs_params h event st :
  outcome (run (_on_attach_ue_action h event) st) = Returned tt ->
  exists imsi k opc,
    params event !! "usim-imsi" = Some imsi
    /\ params event !! "usim-k" = Some k
    /\ params event !! "usim-opc" = Some opc.
Proof.
  change (wp (_on_attach_ue_action h event)
            (fun o _ _ => o = Returned tt ->
               exists imsi k opc,
                 params event !! "usim-imsi" = Some imsi
                 /\ params event !! "usim-k" = Some k
                 /\ params event !! "usim-opc" = Some opc) st []).
  wp_walk; try discriminate.
  intros _. exists s, s0, s1. auto.
Qed.

Lemma committed_cases h ev st :
  committed h ev st = st
  \/ (outcome (run (handler h ev) st) = Returned tt
      /\ committed h ev st = mutation h ev st).
Proof.
  unfold committed.
  destruct (outcome (run (handler h ev) st)) as [[] |] eqn:Ho; [right | left; reflexivity].
  split; [reflexivity | apply handler_mutation, Ho].
Qed.

Lemma handler_interrupted h ev st c :
  is_supervisor_call c = true ->
  outcome (run (handler h ev) st) = Raised (CallError c) ->
  final (run (handler h ev) st) = interrupted h ev st.
Proof.
  intros Hc.
  change (wp (handler h ev)
            (fun o s _ => o = Raised (CallError c) -> s = interrupted h ev st) st []).
  destruct ev; unfold handler, interrupted; wp_walk;
    try discriminate; try reflexivity;
    intros [= <-]; discriminate Hc.
Qed.

(** ** The validation gate and the relation handler *)

(** C1. When the address found in the triggering unit's data bag is not an
    IPv4 literal (the validator answers no), the relation handler returns at
    once: the whole stored state is what it was, and the log is empty, so no
    unit file was rendered or written, no service was restarted and not even
    the status was recomputed. *)
Theorem mme_relation_changed_invalid_address
    (h : Host) (event : RelationChangedEvent) (databag : gmap string string)
    (st : Stored) :
  triggering_databag event = Some databag ->
  is_ipv4 h (databag !! "mme-addr") = false ->
  run (_mme_relation_changed h event) st = (Returned tt, st, []).
Proof.
  intros Hbag Hbad. unfold _mme_relation_changed.
  rewrite Hbag. cbn beta iota. rewrite Hbad. reflexivity.
Qed.

Lemma mme_relation_changed_invalid_address_witness :
  run (_mme_relation_changed healthy (mme_changed "mme.example.org")) serving
  = (Returned tt, serving, []).
Proof.
  apply (mme_relation_changed_invalid_address healthy
           (mme_changed "mme.example.org") (mme_databag "mme.example.org") serving).
  - vm_compute. reflexivity.
  - vm_compute. reflexivity.
Defined.

(** C10. When the triggering unit has no entry in the relation data, the
    relation handler leaves the stored state as it was and its only effect is
    to set the unit status to the freshly derived one: nothing is rendered,
    written or restarted. *)
Theorem mme_relation_changed_no_databag
    (h : Host) (event : RelationChangedEvent) (st : Stored) :
  triggering_databag event = None ->
  run (_mme_relation_changed h event) st
  = (Returned tt, st, [SetUnitStatus (_get_current_status h st)]).
Proof.
  intros Hbag. unfold _mme_relation_changed. rewrite Hbag. reflexivity.
Qed.

Lemma mme_relation_changed_no_databag_witness :
  run (_mme_relation_changed healthy mme_changed_without_data) serving
  = (Returned tt, serving,
     [SetUnitStatus (ActiveStatus "srsenb started. mme: 10.0.0.1. ")]).
Proof.
  apply (mme_relation_changed_no_databag healthy mme_changed_without_data serving).
  vm_compute. reflexivity.
Defined.

(** ** The subscriber triple *)


(** The same holds of the state a handler leaves in memory when it raises,
    unless what it raised is the [KeyError] of an attach action that lacks
    one of its parameters. *)
Lemma raised_populated h ev st :
  populated st = 0 \/ populated st = 3 ->
  (forall key, outcome (run (handler h ev) st) <> Raised (KeyError key)) ->
  populated (final (run (handler h ev) st)) = 0
  \/ populated (final (run (handler h ev) st)) = 3.
Proof.
  intros Hst.
  change (wp (handler h ev)
            (fun o s _ =>
               (forall key, o <> Raised (KeyError key)) ->
               populated s = 0 \/ populated s = 3) st []).
  destruct ev; unfold handler; wp_walk; intros Hkey;
    try exact Hst;
    try (now destruct (Hkey _ eq_refl));
    try (left; reflexivity);
    try (right; reflexivity).
Qed.



(** ** Install *)

(** C3 as stated fails: Install on a started unit that knows its peer returns
    and leaves [started] true and the peer address in place, where the claim
    expects the defaults. *)
Lemma install_does_not_reset :
  outcome (run (_on_install healthy) serving) = Returned tt
  /\ started (final (run (_on_install healthy) serving)) = true
  /\ mme_addr (final (run (_on_install healthy) serving)) = Some "10.0.0.1"
  /\ final (run (_on_install healthy) serving) <> set_installed true set_default.
Proof. vm_compute. repeat split; discriminate. Qed.

(** C3, as the code has it.  When Install returns, [installed] is true and
    every other field of the stored state has the value it had before the
    event: the handler resets none of them. *)
Theorem install_sets_installed_only (h : Host) (st : Stored) :
  outcome (run (_on_install h) st) = Returned tt ->
  final (run (_on_install h) st) = set_installed true st.
Proof. exact (handler_mutation h InstallEvent st). Qed.

Lemma install_sets_installed_only_witness :
  final (run (_on_install healthy) serving) = set_installed true serving.
Proof.
  apply (install_sets_installed_only healthy serving).
  vm_compute. reflexivity.
Defined.

(** ** Start and install *)

(** C6 as stated fails: Start delivered to a fresh unit is handled, and the
    state committed after it has [started] true and [installed] false. *)
Lemma started_without_installed :
  ~ (forall st, reachable st -> started st = true -> installed st = true).
Proof.
  intros Hclaim.
  specialize (Hclaim (committed healthy StartEvent set_default)
                (reachable_step healthy StartEvent set_default reachable_init)).
  vm_compute in Hclaim. specialize (Hclaim eq_refl). discriminate.
Qed.

(** C6, as the code has it.  The handlers never clear [installed] and Start
    sets [started] without looking at [installed]; so [started] implies
    [installed] in every state reached by a run in which Start is only
    delivered once [installed] is true. *)
Theorem started_implies_installed (st : Stored) :
  reachable_start_after_install st ->
  started st = true -> installed st = true.
Proof.
  induction 1 as [| h ev st Hst IH Hguard]; [discriminate |].
  destruct (committed_cases h ev st) as [-> | [_ ->]]; [exact IH |].
  destruct ev; cbn [mutation]; try exact IH.
  - reflexivity.
  - intros _. apply Hguard. reflexivity.
  - discriminate.
  - destruct (triggering_databag event); [| exact IH].
    destruct (is_ipv4 h _); exact IH.
Qed.

Lemma started_implies_installed_witness :
  installed installed_then_started = true.
Proof.
  apply (started_implies_installed installed_then_started).
  - unfold installed_then_started.
    apply rsai_step; [apply rsai_step; [apply rsai_init | discriminate] |].
    intros _. vm_compute. reflexivity.
  - vm_compute. reflexivity.
Defined.

(** ** Supervisor failures *)

(** C7 as stated fails: with a supervisor that raises, Start ends with
    [started] still false and the attach action ends with [ue_attached] still
    false. *)
Lemma supervisor_failure_skips_flag :
  outcome (run (_on_start supervisor_down) set_default)
    = Raised (CallError (service_start SRS_ENB_SERVICE))
  /\ started (final (run (_on_start supervisor_down) set_default)) = false
  /\ outcome (run (_on_attach_ue_action supervisor_down attach_ue) set_default)
     = Raised (CallError (service_restart SRS_UE_SERVICE))
  /\ ue_attached (final (run (_on_attach_ue_action supervisor_down attach_ue) set_default))
     = false.
Proof. vm_compute. repeat split. Qed.

(** C7, as the code has it.  A supervisor call that raises ends the handler
    there.  Assignments written after the call are not made: a failed start
    or stop leaves the whole state, [started] included, as it was, and a
    failed restart in the attach action leaves [ue_attached] as it was.
    Assignments written before the call are made: the attach action has
    already stored the three subscriber values, and ConfigChanged has
    already stored the new bind address. *)
Theorem supervisor_failure_state (h : Host) (event : ActionEvent) (st : Stored) :
  (outcome (run (_on_start h) st) = Raised (CallError (service_start SRS_ENB_SERVICE)) ->
   final (run (_on_start h) st) = st)
  /\ (outcome (run (_on_stop h) st) = Raised (CallError (service_stop SRS_ENB_SERVICE)) ->
      final (run (_on_stop h) st) = st)
  /\ (outcome (run (_on_attach_ue_action h event) st)
        = Raised (CallError (service_restart SRS_UE_SERVICE)) ->
      let st' := final (run (_on_attach_ue_action h event) st) in
      ue_attached st' = ue_attached st
      /\ ue_usim_imsi st' = params event !! "usim-imsi"
      /\ ue_usim_k st' = params event !! "usim-k"
      /\ ue_usim_opc st' = params event !! "usim-opc")
  /\ (outcome (run (_on_config_changed h) st)
        = Raised (CallError (service_restart SRS_ENB_SERVICE)) ->
      final (run (_on_config_changed h) st) = set_bind_addr (_get_bind_address h) st).
Proof.
  split; [| split; [| split]].
  - exact (handler_interrupted h StartEvent st
             (service_start SRS_ENB_SERVICE) eq_refl).
  - exact (handler_interrupted h StopEvent st
             (service_stop SRS_ENB_SERVICE) eq_refl).
  - intros Hraise st'. subst st'.
    pose proof (handler_interrupted h (AttachUeAction event) st
                  (service_restart SRS_UE_SERVICE) eq_refl Hraise) as Hfinal.
    cbn [handler] in Hfinal. rewrite Hfinal. cbn. auto.
  - exact (handler_interrupted h ConfigChangedEvent st
             (service_restart SRS_ENB_SERVICE) eq_refl).
Qed.

Lemma supervisor_failure_state_witness :
  started (final (run (_on_start supervisor_down) set_default)) = false
  /\ final (run (_on_stop supervisor_down) serving) = serving
  /\ ue_attached (final (run (_on_attach_ue_action supervisor_down attach_ue) serving)) = false
  /\ bind_addr (final (run (_on_config_changed supervisor_down) serving)) = Some "10.0.0.7".
Proof.
  destruct (supervisor_failure_state supervisor_down attach_ue set_default)
    as (Hstart & _).
  destruct (supervisor_failure_state supervisor_down attach_ue serving)
    as (_ & Hstop & Hattach & Hconfig).
  split; [| split; [| split]].
  - rewrite Hstart; [| vm_compute]; reflexivity.
  - apply Hstop. vm_compute. reflexivity.
  - destruct Hattach as [-> _]; [vm_compute |]; reflexivity.
  - rewrite Hconfig; [| vm_compute]; reflexivity.
Defined.

(** ** Rendering *)






(** ** Flags of the two commands *)

(** *** Splitting a joined text *)

Lemma split_cons c a s :
  Utils.split c (String a s)
  = if Ascii.eqb a c then "" :: Utils.split c s
    else match Utils.split c s with
         | piece :: pieces => String a piece :: pieces
         | [] => [String a ""]
         end.
Proof. reflexivity. Qed.

Lemma has_char_cons c a s :
  has_char c (String a s) = Ascii.eqb a c || has_char c s.
Proof. reflexivity. Qed.

Lemma append_cons a s t : String a s ++ t = String a (s ++ t).
Proof. reflexivity. Qed.

Lemma has_char_append c a b : has_char c (a ++ b) = has_char c a || has_char c b.
Proof.
  induction a as [| x a IH]; [reflexivity |].
  rewrite append_cons, !has_char_cons, IH. now rewrite orb_assoc.
Qed.

Lemma split_without c s : has_char c s = false -> Utils.split c s = [s].
Proof.
  induction s as [| a s IH]; [reflexivity |].
  rewrite has_char_cons, split_cons.
  destruct (Ascii.eqb a c); [discriminate |].
  intros Hs. now rewrite (IH Hs).
Qed.

Lemma split_append c a b :
  has_char c a = false ->
  Utils.split c (a ++ String c b) = a :: Utils.split c b.
Proof.
  induction a as [| x a IH].
  - intros _. change ("" ++ String c b) with (String c b).
    rewrite split_cons. now rewrite Ascii.eqb_refl.
  - rewrite has_char_cons, append_cons, split_cons.
    destruct (Ascii.eqb x c); [discriminate |].
    intros Ha. now rewrite (IH Ha).
Qed.

Lemma join_cons sep a b l :
  Py.join sep (a :: b :: l) = a ++ sep ++ Py.join sep (b :: l).
Proof. reflexivity. Qed.

Lemma split_join (args : list string) :
  args <> [] ->
  Forall (fun arg => has_char " " arg = false) args ->
  Utils.split " " (Py.join " " args) = args.
Proof.
  induction args as [| a [| b l] IH]; intros Hne Hall.
  - now destruct Hne.
  - inversion_clear Hall. now apply split_without.
  - inversion_clear Hall.
    rewrite join_cons.
    change (" " ++ Py.join " " (b :: l)) with (String " " (Py.join " " (b :: l))).
    rewrite split_append by assumption.
    rewrite IH; [reflexivity | discriminate | assumption].
Qed.

Lemma spaceless_lookup cfg key : spaceless_config cfg -> spaceless (cfg !! key).
Proof.
  intros Hcfg. unfold spaceless.
  destruct (cfg !! key) as [v |] eqn:Hv; [exact (Hcfg key v Hv) | reflexivity].
Qed.

Lemma spaceless_flag (flag : string) (o : option string) :
  has_char " " flag = false -> spaceless o ->
  has_char " " (flag ++ Py.str o) = false.
Proof. intros Hf Ho. rewrite has_char_append, Hf. exact Ho. Qed.

(** *** Flags among the arguments *)

Lemma truthy_is_set o : Py.truthy o = true <-> is_set o.
Proof.
  unfold is_set. destruct o as [[| c a] |]; cbn; split.
  - discriminate.
  - intros (a & [= <-] & Ha). now destruct Ha.
  - intros _. eexists. split; [reflexivity | discriminate].
  - reflexivity.
  - discriminate.
  - intros (a & [=] & _).
Qed.

Lemma has_flag_flag_args flag args : has_flag flag args <-> flag_args flag args <> [].
Proof.
  unfold has_flag, flag_args. split.
  - intros (arg & Hin & Hp) Hnil.
    assert (Hf : In arg (List.filter (Py.startswith flag) args))
      by (apply filter_In; auto).
    rewrite Hnil in Hf. exact Hf.
  - intros Hne. destruct (List.filter (Py.startswith flag) args) as [| arg l] eqn:Hf;
      [now destruct Hne |].
    exists arg. apply filter_In. rewrite Hf. left. reflexivity.
Qed.

Section FlagLaws.

Variable cfg : gmap string string.
Variable st : Stored.

Lemma enb_mme_flag :
  flag_args "--enb.mme_addr=" (srsenb_command cfg st)
  = if Py.truthy (mme_addr st)
    then ["--enb.mme_addr=" ++ Py.str (mme_addr st)] else [].
Proof.
  unfold srsenb_command.
  destruct (Py.truthy (mme_addr st)), (Py.truthy (bind_addr st)); reflexivity.
Qed.

Lemma enb_gtp_flag :
  flag_args "--enb.gtp_bind_addr=" (srsenb_command cfg st)
  = if Py.truthy (bind_addr st)
    then ["--enb.gtp_bind_addr=" ++ Py.str (bind_addr st)] else [].
Proof.
  unfold srsenb_command.
  destruct (Py.truthy (mme_addr st)), (Py.truthy (bind_addr st)); reflexivity.
Qed.

Lemma enb_s1c_flag :
  flag_args "--enb.s1c_bind_addr=" (srsenb_command cfg st)
  = if Py.truthy (bind_addr st)
    then ["--enb.s1c_bind_addr=" ++ Py.str (bind_addr st)] else [].
Proof.
  unfold srsenb_command.
  destruct (Py.truthy (mme_addr st)), (Py.truthy (bind_addr st)); reflexivity.
Qed.






End FlagLaws.

Lemma has_flag_when flag args (b : bool) (arg : string) :
  flag_args flag args = (if b then [arg] else []) ->
  has_flag flag args <-> b = true.
Proof.
  intros Hargs. rewrite has_flag_flag_args, Hargs.
  destruct b; split.
  - reflexivity.
  - discriminate.
  - intros Hne. now destruct Hne.
  - discriminate.
Qed.

Lemma is_set_not_none o : o <> Some "" -> is_set o <-> o <> None.
Proof.
  intros Hne. unfold is_set. split.
  - intros (a & -> & _). discriminate.
  - destruct o as [a |]; [| intros Hn; now destruct Hn].
    intros _. exists a. split; [reflexivity |]. intros ->. now apply Hne.
Qed.

(** On the argument list: the peer flag is there if and only if the peer
    address is set, both bind flags if and only if the bind address is set,
    and neither bind flag without it. *)
Lemma argument_flag_presence (cfg : gmap string string) (st : Stored) :
  (has_flag "--enb.mme_addr=" (srsenb_command cfg st) <-> is_set (mme_addr st))
  /\ (has_flag "--enb.gtp_bind_addr=" (srsenb_command cfg st)
      /\ has_flag "--enb.s1c_bind_addr=" (srsenb_command cfg st)
      <-> is_set (bind_addr st))
  /\ (has_flag "--enb.gtp_bind_addr=" (srsenb_command cfg st)
      \/ has_flag "--enb.s1c_bind_addr=" (srsenb_command cfg st)
      -> is_set (bind_addr st))
  /\ (mme_addr st <> Some "" ->
      has_flag "--enb.mme_addr=" (srsenb_command cfg st) <-> mme_addr st <> None)
  /\ (bind_addr st <> Some "" ->
      has_flag "--enb.gtp_bind_addr=" (srsenb_command cfg st)
      /\ has_flag "--enb.s1c_bind_addr=" (srsenb_command cfg st)
      <-> bind_addr st <> None).
Proof.
  pose proof (has_flag_when _ _ _ _ (enb_mme_flag cfg st)) as Hmme.
  pose proof (has_flag_when _ _ _ _ (enb_gtp_flag cfg st)) as Hgtp.
  pose proof (has_flag_when _ _ _ _ (enb_s1c_flag cfg st)) as Hs1c.
  rewrite truthy_is_set in Hmme, Hgtp, Hs1c.
  assert (Hboth : has_flag "--enb.gtp_bind_addr=" (srsenb_command cfg st)
                  /\ has_flag "--enb.s1c_bind_addr=" (srsenb_command cfg st)
                  <-> is_set (bind_addr st)).
  { split.
    - intros [Hg _]. apply Hgtp, Hg.
    - intros Hset. split; [apply Hgtp | apply Hs1c]; exact Hset. }
  split; [exact Hmme |].
  split; [exact Hboth |].
  split; [intros [Hg | Hs]; [apply Hgtp, Hg | apply Hs1c, Hs] |].
  split; intros Hne.
  - rewrite Hmme. apply is_set_not_none, Hne.
  - rewrite Hboth. apply is_set_not_none, Hne.
Qed.

(** *** Flags among the words of the command *)

Lemma srsenb_command_split cfg st :
  Forall (fun key => spaceless (cfg !! key)) enb_options ->
  spaceless (mme_addr st) -> spaceless (bind_addr st) ->
  Utils.split " " (_get_srsenb_command cfg st) = srsenb_command cfg st.
Proof.
  intros Hcfg Hmme Hbind.
  assert (Hkey : forall key, In key enb_options -> spaceless (cfg !! key))
    by (exact (proj1 (List.Forall_forall _ _) Hcfg)).
  apply split_join.
  - unfold srsenb_command. discriminate.
  - unfold srsenb_command.
    destruct (Py.truthy (mme_addr st)), (Py.truthy (bind_addr st));
      repeat (apply Forall_cons; split);
      try apply Forall_nil; try reflexivity;
      apply spaceless_flag; try reflexivity; try assumption;
      apply Hkey; cbn; auto 10.
Qed.

(** C4 as stated fails.  The builder joins without escaping, so an option
    value with a space in it adds words to the command: with the name option
    set to [x --enb.mme_addr=6.6.6.6] and no peer address stored, the command
    has a word that is a peer flag. *)
Lemma unescaped_option_adds_flag :
  mme_addr set_default = None
  /\ In "--enb.mme_addr=6.6.6.6"
       (Utils.split " " (_get_srsenb_command injecting_config set_default))
  /\ ~ (command_has_flag "--enb.mme_addr="
          (_get_srsenb_command injecting_config set_default)
        <-> is_set (mme_addr set_default)).
Proof.
  split; [reflexivity |].
  assert (Hin : In "--enb.mme_addr=6.6.6.6"
                  (Utils.split " " (_get_srsenb_command injecting_config set_default)))
    by (vm_compute; auto).
  split; [exact Hin |].
  intros [Hflag _].
  destruct Hflag as (a & [=] & _).
  exists "--enb.mme_addr=6.6.6.6". split; [exact Hin | reflexivity].
Qed.

(** C4, as the code has it.  When none of the five options the builder
    prints and neither stored address has a space in it, the words of the
    command [_get_srsenb_command] returns include a peer flag
    [--enb.mme_addr=] if and only if the peer address is set, and include
    both bind flags, [--enb.gtp_bind_addr=] and [--enb.s1c_bind_addr=], if
    and only if the bind address is set; the command never has one of the
    two without it.  A field is set when it holds an address, that is a
    non-empty text: when it does not hold the empty text this is the same as
    not being [None]. *)
Theorem command_flag_presence (cfg : gmap string string) (st : Stored) :
  Forall (fun key => spaceless (cfg !! key)) enb_options ->
  spaceless (mme_addr st) -> spaceless (bind_addr st) ->
  (command_has_flag "--enb.mme_addr=" (_get_srsenb_command cfg st)
   <-> is_set (mme_addr st))
  /\ (command_has_flag "--enb.gtp_bind_addr=" (_get_srsenb_command cfg st)
      /\ command_has_flag "--enb.s1c_bind_addr=" (_get_srsenb_command cfg st)
      <-> is_set (bind_addr st))
  /\ (command_has_flag "--enb.gtp_bind_addr=" (_get_srsenb_command cfg st)
      \/ command_has_flag "--enb.s1c_bind_addr=" (_get_srsenb_command cfg st)
      -> is_set (bind_addr st))
  /\ (mme_addr st <> Some "" ->
      command_has_flag "--enb.mme_addr=" (_get_srsenb_command cfg st)
      <-> mme_addr st <> None)
  /\ (bind_addr st <> Some "" ->
      command_has_flag "--enb.gtp_bind_addr=" (_get_srsenb_command cfg st)
      /\ command_has_flag "--enb.s1c_bind_addr=" (_get_srsenb_command cfg st)
      <-> bind_addr st <> None).
Proof.
  intros Hcfg Hmme Hbind. unfold command_has_flag.
  rewrite (srsenb_command_split cfg st Hcfg Hmme Hbind).
  apply argument_flag_presence.
Qed.

Lemma command_flag_presence_witness :
  command_has_flag "--enb.mme_addr=" (_get_srsenb_command default_config addressed)
  /\ command_has_flag "--enb.gtp_bind_addr=" (_get_srsenb_command default_config addressed)
  /\ command_has_flag "--enb.s1c_bind_addr=" (_get_srsenb_command default_config addressed).
Proof.
  destruct (command_flag_presence default_config addressed)
    as (_ & _ & _ & Hmme & Hbind).
  - repeat (apply Forall_cons; split); try apply Forall_nil; vm_compute; reflexivity.
  - vm_compute. reflexivity.
  - vm_compute. reflexivity.
  - split.
    + apply Hmme; vm_compute; discriminate.
    + apply Hbind; vm_compute; discriminate.
Defined.

(** ** Status derivation *)

Lemma append_empty (s : string) : s ++ "" = s.
Proof.
  induction s as [| c s IH]; [reflexivity |].
  change (String c (s ++ "") = String c s). now rewrite IH.
Qed.

(** C5 as stated fails on the wording: the status of a started unit with a
    live srsenb, peer 10.0.0.1 and no attached subscriber reads
    [srsenb started. mme: 10.0.0.1. ], not the text the claim gives. *)
Lemma status_text_differs :
  _get_current_status healthy serving
    = ActiveStatus "srsenb started. mme: 10.0.0.1. "
  /\ _get_current_status healthy serving
     <> ActiveStatus "base-station started. peer: 10.0.0.1. ".
Proof. vm_compute. split; [reflexivity | discriminate]. Qed.

(** C5, as the code has it.  For an installed and started unit whose srsenb
    service is live, whose peer is 10.0.0.1 and which has no attached
    subscriber, the status text is exactly
    [srsenb started. mme: 10.0.0.1. ].  In general the text has two tiers:
    when the unit is started and srsenb is live it is [srsenb started. ],
    then the peer when set, then [ue attached. ] exactly when [ue_attached]
    holds and srsue is live, and the installed text is not part of it;
    otherwise it is [SW installed.] for an installed unit and empty for any
    other. *)
Theorem status_precedence (h : Host) (st : Stored) :
  (installed st = true ->
   started st = true ->
   service_active h SRS_ENB_SERVICE = true ->
   mme_addr st = Some "10.0.0.1" ->
   ue_attached st = false ->
   _get_current_status h st = ActiveStatus "srsenb started. mme: 10.0.0.1. ")
  /\ _get_current_status h st
     = ActiveStatus
         (if started st && service_active h SRS_ENB_SERVICE
          then "srsenb started. "
               ++ (if Py.truthy (mme_addr st)
                   then "mme: " ++ Py.str (mme_addr st) ++ ". " else "")
               ++ (if ue_attached st && service_active h SRS_UE_SERVICE
                   then "ue attached. " else "")
          else if installed st then "SW installed." else "").
Proof.
  split.
  - intros Hi Hs Hlive Hmme Hue. unfold _get_current_status.
    rewrite Hi, Hs, Hlive, Hmme, Hue. reflexivity.
  - unfold _get_current_status.
    destruct (started st && service_active h SRS_ENB_SERVICE); [| reflexivity].
    destruct (Py.truthy (mme_addr st)),
      (ue_attached st && service_active h SRS_UE_SERVICE); cbn;
      rewrite ?append_empty; reflexivity.
Qed.

Lemma status_precedence_witness :
  _get_current_status healthy serving
  = ActiveStatus "srsenb started. mme: 10.0.0.1. ".
Proof.
  destruct (status_precedence healthy serving) as [Hexact _].
  apply Hexact; reflexivity.
Defined.

(** ** Optional flags *)







(** * Further properties of the handlers *)

(** ** Which event owns which field *)

Lemma mutation_idempotent h ev st :
  mutation h ev (mutation h ev st) = mutation h ev st.
Proof.
  destruct ev; cbn [mutation]; try reflexivity.
  destruct (triggering_databag event); [| reflexivity].
  destruct (is_ipv4 h _); reflexivity.
Qed.

(** X1. Each field of the stored state has its own events.  Whatever the
    host does, the state committed after an event differs from the state
    before it at most as follows: the peer address only by a relation-changed
    event, the bind address only by ConfigChanged, the subscriber triple and
    [ue_attached] only by the attach and detach actions, [installed] only by
    Install, and [started] only by Start and Stop. *)
Theorem field_ownership (h : Host) (ev : Event) (st : Stored) :
  ((forall event, ev <> MmeRelationChangedEvent event) ->
   mme_addr (committed h ev st) = mme_addr st)
  /\ (ev <> ConfigChangedEvent ->
      bind_addr (committed h ev st) = bind_addr st)
  /\ ((forall event, ev <> AttachUeAction event) -> ev <> DetachUeAction ->
      ue_usim_imsi (committed h ev st) = ue_usim_imsi st
      /\ ue_usim_k (committed h ev st) = ue_usim_k st
      /\ ue_usim_opc (committed h ev st) = ue_usim_opc st
      /\ ue_attached (committed h ev st) = ue_attached st)
  /\ (ev <> InstallEvent ->
      installed (committed h ev st) = installed st)
  /\ (ev <> StartEvent -> ev <> StopEvent ->
      started (committed h ev st) = started st).
Proof.
  destruct (committed_cases h ev st) as [-> | [_ ->]];
    [repeat split; reflexivity |].
  split; [| split; [| split; [| split]]].
  - intros Hev. destruct ev; cbn [mutation]; try reflexivity.
    now destruct (Hev event).
  - intros Hev. destruct ev; cbn [mutation]; try reflexivity.
    + now destruct Hev.
    + destruct (triggering_databag event); [| reflexivity].
      destruct (is_ipv4 h _); reflexivity.
  - intros Hattach Hdetach. destruct ev; cbn [mutation];
      try (repeat split; reflexivity).
    + now destruct (Hattach event).
    + now destruct Hdetach.
    + destruct (triggering_databag event); [| repeat split; reflexivity].
      destruct (is_ipv4 h _); repeat split; reflexivity.
  - intros Hev. destruct ev; cbn [mutation]; try reflexivity.
    + now destruct Hev.
    + destruct (triggering_databag event); [| reflexivity].
      destruct (is_ipv4 h _); reflexivity.
  - intros Hstart Hstop. destruct ev; cbn [mutation]; try reflexivity.
    + now destruct Hstart.
    + now destruct Hstop.
    + destruct (triggering_databag event); [| reflexivity].
      destruct (is_ipv4 h _); reflexivity.
Qed.

Lemma field_ownership_witness :
  mme_addr (committed healthy (AttachUeAction attach_ue) serving) = Some "10.0.0.1"
  /\ bind_addr (committed healthy (AttachUeAction attach_ue) serving) = None
  /\ ue_attached (committed healthy ConfigChangedEvent serving) = false
  /\ installed (committed healthy (AttachUeAction attach_ue) serving) = true
  /\ started (committed healthy (AttachUeAction attach_ue) serving) = true.
Proof.
  destruct (field_ownership healthy (AttachUeAction attach_ue) serving)
    as (Hmme & Hbind & _ & Hinstalled & Hstarted).
  destruct (field_ownership healthy ConfigChangedEvent serving)
    as (_ & _ & Hue & _).
  assert (Hue' := Hue ltac:(discriminate) ltac:(discriminate)).
  destruct Hue' as (_ & _ & _ & Hattached).
  split; [rewrite Hmme; [reflexivity | discriminate] |].
  split; [rewrite Hbind; [reflexivity | discriminate] |].
  split; [rewrite Hattached; reflexivity |].
  split; [rewrite Hinstalled; [reflexivity | discriminate] |].
  rewrite Hstarted; [reflexivity | discriminate | discriminate].
Defined.

(** X2. No event clears [installed]: once it is true it is true in the state
    committed after any event, on any host. *)
Theorem installed_is_kept (h : Host) (ev : Event) (st : Stored) :
  installed st = true -> installed (committed h ev st) = true.
Proof.
  intros Hst.
  destruct (committed_cases h ev st) as [-> | [_ ->]]; [exact Hst |].
  destruct ev; cbn [mutation]; try exact Hst; try reflexivity.
  destruct (triggering_databag event); [| exact Hst].
  destruct (is_ipv4 h _); exact Hst.
Qed.

Lemma installed_is_kept_witness :
  installed (committed supervisor_down StopEvent serving) = true.
Proof.
  apply (installed_is_kept supervisor_down StopEvent serving). reflexivity.
Defined.

(** X3. Between two events, [ue_attached] is true only if all three
    subscriber fields hold a value. *)
Theorem attached_has_subscriber (st : Stored) :
  reachable st -> ue_attached st = true -> populated st = 3.
Proof.
  induction 1 as [| h ev st Hst IH]; [discriminate |].
  destruct (committed_cases h ev st) as [-> | [Hret ->]]; [exact IH |].
  destruct ev; cbn [mutation]; try exact IH.
  - apply attach_needs_params in Hret as (imsi & k & opc & -> & -> & ->).
    reflexivity.
  - discriminate.
  - destruct (triggering_databag event); [| exact IH].
    destruct (is_ipv4 h _); exact IH.
Qed.

Lemma attached_has_subscriber_witness :
  populated (committed healthy (AttachUeAction attach_ue) set_default) = 3.
Proof.
  apply (attached_has_subscriber
           (committed healthy (AttachUeAction attach_ue) set_default)).
  - apply reachable_step, reachable_init.
  - vm_compute. reflexivity.
Defined.

(** X4. The peer address is only ever stored after the validator accepted
    it: between two events of a run whose hosts all validate as [valid]
    does, the stored peer address is either absent or a value [valid]
    accepts. *)
Theorem stored_peer_address_is_valid (valid : option string -> bool) (st : Stored) :
  reachable_validating valid st ->
  mme_addr st = None \/ valid (mme_addr st) = true.
Proof.
  induction 1 as [| h ev st Hst IH Hvalid]; [left; reflexivity |].
  destruct (committed_cases h ev st) as [-> | [_ ->]]; [exact IH |].
  destruct ev; cbn [mutation]; try exact IH.
  destruct (triggering_databag event) as [databag |]; [| exact IH].
  destruct (is_ipv4 h (databag !! "mme-addr")) eqn:Hok; [| exact IH].
  right. cbn. rewrite <- Hvalid. exact Hok.
Qed.

Lemma stored_peer_address_is_valid_witness :
  let st := committed healthy (MmeRelationChangedEvent (mme_changed "10.0.0.1"))
              set_default in
  mme_addr st = None \/ Utils.is_ipv4 (mme_addr st) = true.
Proof.
  apply (stored_peer_address_is_valid Utils.is_ipv4).
  apply rv_step; [apply rv_init | reflexivity].
Defined.

(** X5. Every event is idempotent on the state: delivering an event again,
    on the same host, to the state committed after it commits that same
    state. *)
Theorem committed_idempotent (h : Host) (ev : Event) (st : Stored) :
  committed h ev (committed h ev st) = committed h ev st.
Proof.
  destruct (committed_cases h ev st) as [Hsame | [_ Hmut]].
  - now rewrite !Hsame.
  - rewrite Hmut.
    destruct (committed_cases h ev (mutation h ev st)) as [-> | [_ ->]];
      [reflexivity | apply mutation_idempotent].
Qed.

(** X6. ConfigChanged and the relation handler are idempotent in their
    effects too: delivered again, on the same host, to the state committed
    after them, they run exactly as the first time, with the same outcome,
    the same unit text written and the same restart. *)
Theorem reconfiguration_repeats
    (h : Host) (event : RelationChangedEvent) (st : Stored) :
  run (_on_config_changed h) (committed h ConfigChangedEvent st)
  = run (_on_config_changed h) st
  /\ run (_mme_relation_changed h event)
       (committed h (MmeRelationChangedEvent event) st)
     = run (_mme_relation_changed h event) st.
Proof.
  split.
  - destruct (committed_cases h ConfigChangedEvent st) as [-> | [_ ->]];
      reflexivity.
  - destruct (committed_cases h (MmeRelationChangedEvent event) st)
      as [-> | [_ ->]]; [reflexivity |].
    cbn [mutation]. unfold run, _mme_relation_changed.
    destruct (triggering_databag event) as [databag |]; [| reflexivity].
    destruct (is_ipv4 h (databag !! "mme-addr")); reflexivity.
Qed.

(** ** Failing handlers *)



(** ** What a returning handler did *)

(** X8. An Install that returns has made exactly these calls, in this order:
    the apt cache update, the ten package installs, the removal and
    creation of the four directories, the clone, the build, the copy of the
    configuration files, the write of the srsenb unit and a daemon reload,
    the write of the srsue unit and a daemon reload, and the enabling of
    srsenb.  Each unit is its template rendered with the command built from
    the state Install started from.  The statuses it set are the six
    maintenance statuses; it starts and restarts nothing. *)
Theorem install_calls_in_order (h : Host) (st : Stored) :
  outcome (run (_on_install h) st) = Returned tt ->
  exists srsenb_text srsenb_unit srsue_text srsue_unit,
    read_text h SRS_ENB_SERVICE_TEMPLATE = Some srsenb_text
    /\ render h srsenb_text (_get_srsenb_command (config h) st) = Some srsenb_unit
    /\ read_text h SRS_UE_SERVICE_TEMPLATE = Some srsue_text
    /\ render h srsue_text (_get_srsue_command (config h) st) = Some srsue_unit
    /\ invoked (log (run (_on_install h) st)) = install_calls srsenb_unit srsue_unit
    /\ statuses (log (run (_on_install h) st)) = install_statuses.
Proof.
  change (wp (_on_install h)
            (fun o _ l => o = Returned tt ->
               exists srsenb_text srsenb_unit srsue_text srsue_unit,
                 read_text h SRS_ENB_SERVICE_TEMPLATE = Some srsenb_text
                 /\ render h srsenb_text (_get_srsenb_command (config h) st)
                    = Some srsenb_unit
                 /\ read_text h SRS_UE_SERVICE_TEMPLATE = Some srsue_text
                 /\ render h srsue_text (_get_srsue_command (config h) st)
                    = Some srsue_unit
                 /\ invoked l = install_calls srsenb_unit srsue_unit
                 /\ statuses l = install_statuses) st []).
  wp_walk; try discriminate.
  intros _.
  match goal with
  | H1 : read_text h SRS_ENB_SERVICE_TEMPLATE = Some ?t1,
    H2 : render h ?t1 _ = Some ?u1,
    H3 : read_text h SRS_UE_SERVICE_TEMPLATE = Some ?t2,
    H4 : render h ?t2 _ = Some ?u2 |- _ =>
      exists t1, u1, t2, u2;
      split; [reflexivity |]; split; [exact H2 |];
      split; [reflexivity |]; split; [exact H4 |];
      split; reflexivity
  end.
Qed.

Lemma install_calls_in_order_witness :
  exists srsenb_text srsenb_unit srsue_text srsue_unit,
    read_text healthy SRS_ENB_SERVICE_TEMPLATE = Some srsenb_text
    /\ render healthy srsenb_text (_get_srsenb_command (config healthy) serving)
       = Some srsenb_unit
    /\ read_text healthy SRS_UE_SERVICE_TEMPLATE = Some srsue_text
    /\ render healthy srsue_text (_get_srsue_command (config healthy) serving)
       = Some srsue_unit
    /\ invoked (log (run (_on_install healthy) serving))
       = install_calls srsenb_unit srsue_unit
    /\ statuses (log (run (_on_install healthy) serving)) = install_statuses.
Proof.
  apply (install_calls_in_order healthy serving). vm_compute. reflexivity.
Defined.

(** X9. A Start that returns has set the maintenance status, asked the
    supervisor to start srsenb and nothing else, and then set the status
    derived from the state with [started] true.  That status depends on the
    liveness the supervisor reports: when srsenb is not live after the
    start, the text is only the installed-tier one. *)
Theorem start_effects (h : Host) (st : Stored) :
  outcome (run (_on_start h) st) = Returned tt ->
  log (run (_on_start h) st)
  = [ SetUnitStatus (MaintenanceStatus "Starting srsenb");
      Invoke (service_start SRS_ENB_SERVICE);
      SetUnitStatus (_get_current_status h (set_started true st)) ]
  /\ (service_active h SRS_ENB_SERVICE = false ->
      _get_current_status h (set_started true st)
      = ActiveStatus (if installed st then "SW installed." else "")).
Proof.
  intros Hret. split.
  - revert Hret.
    change (wp (_on_start h)
              (fun o _ l => o = Returned tt ->
                 l = [ SetUnitStatus (MaintenanceStatus "Starting srsenb");
                       Invoke (service_start SRS_ENB_SERVICE);
                       SetUnitStatus (_get_current_status h (set_started true st)) ])
              st []).
    wp_walk; [discriminate | reflexivity].
  - intros Hdead. unfold _get_current_status. cbn [started set_started installed].
    rewrite Hdead. reflexivity.
Qed.

Lemma start_effects_witness :
  log (run (_on_start asleep) serving)
  = [ SetUnitStatus (MaintenanceStatus "Starting srsenb");
      Invoke (service_start SRS_ENB_SERVICE);
      SetUnitStatus (_get_current_status asleep (set_started true serving)) ]
  /\ _get_current_status asleep (set_started true serving)
     = ActiveStatus "SW installed.".
Proof.
  destruct (start_effects asleep serving) as [Hlog Hstatus].
  - vm_compute. reflexivity.
  - split; [exact Hlog |]. apply Hstatus. reflexivity.
Defined.

(** X10. A Stop that returns has removed and recreated the four directories,
    then asked the supervisor to stop srsenb, then set the status; and that
    status never mentions srsenb, the peer or the subscriber: its text is
    [SW installed.] on an installed unit and empty otherwise, whatever the
    supervisor reports. *)
Theorem stop_effects (h : Host) (st : Stored) :
  outcome (run (_on_stop h) st) = Returned tt ->
  log (run (_on_stop h) st)
  = (List.map Invoke reset_calls
     ++ [ Invoke (service_stop SRS_ENB_SERVICE);
          SetUnitStatus
            (ActiveStatus (if installed st then "SW installed." else "")) ])%list.
Proof.
  change (wp (_on_stop h)
            (fun o _ l => o = Returned tt ->
               l = (List.map Invoke reset_calls
                    ++ [ Invoke (service_stop SRS_ENB_SERVICE);
                         SetUnitStatus
                           (ActiveStatus
                              (if installed st then "SW installed." else "")) ])%list)
            st []).
  wp_walk; try discriminate. intros _. reflexivity.
Qed.

Lemma stop_effects_witness :
  log (run (_on_stop healthy) serving)
  = (List.map Invoke reset_calls
     ++ [ Invoke (service_stop SRS_ENB_SERVICE);
          SetUnitStatus (ActiveStatus "SW installed.") ])%list.
Proof.
  apply (stop_effects healthy serving). vm_compute. reflexivity.
Defined.

(** X11. Stop begins by removing the source, build, configuration and
    service directories, whatever happens afterwards; and when recreating
    one of them fails, the supervisor is never asked to stop the service. *)
Theorem stop_removes_first (h : Host) (st : Stored) (path : string) :
  firstn 4 (log (run (_on_stop h) st)) = List.map Invoke removals
  /\ (outcome (run (_on_stop h) st) = Raised (CallError (mkdir path)) ->
      stopped (log (run (_on_stop h) st)) = []).
Proof.
  change (wp (_on_stop h)
            (fun o _ l =>
               firstn 4 l = List.map Invoke removals
               /\ (o = Raised (CallError (mkdir path)) -> stopped l = [])) st []).
  wp_walk; (split; [reflexivity |]); try discriminate; reflexivity.
Qed.

(** A host on which the build directory cannot be created. *)
Lemma stop_removes_first_witness :
  let h := {| config := default_config;
              raises := fun _ c => match c with
                                   | mkdir path => String.eqb path BUILD_PATH
                                   | _ => false
                                   end;
              read_text := templates;
              render := Jinja.answer;
              service_active := fun _ => true;
              is_ipv4 := Utils.is_ipv4;
              ip_from_iface := fun _ => None;
              ip_from_default_iface := None |} in
  stopped (log (run (_on_stop h) serving)) = [].
Proof.
  intros h.
  destruct (stop_removes_first h serving BUILD_PATH) as [_ Hquiet].
  apply Hquiet. vm_compute. reflexivity.
Defined.

(** ** Files and services the handlers touch *)

(** X12. Every file a handler opens for writing is one of the two systemd
    unit files: on every host, for every event and state, each [write_file]
    in the log goes to the srsenb or to the srsue unit path.  What Install
    copies, clones and builds is not written this way and is not covered. *)
Theorem writes_only_unit_files
    (h : Host) (ev : Event) (st : Stored) (path content : string) :
  In (path, content) (written (log (run (handler h ev) st))) ->
  path = SRS_ENB_SERVICE_PATH \/ path = SRS_UE_SERVICE_PATH.
Proof.
  change (wp (handler h ev)
            (fun _ _ l =>
               In (path, content) (written l) ->
               path = SRS_ENB_SERVICE_PATH \/ path = SRS_UE_SERVICE_PATH) st []).
  destruct ev; unfold handler; wp_walk; cbn;
    intuition congruence.
Qed.

Lemma writes_only_unit_files_witness :
  SRS_UE_SERVICE_PATH = SRS_ENB_SERVICE_PATH
  \/ SRS_UE_SERVICE_PATH = SRS_UE_SERVICE_PATH.
Proof.
  apply (writes_only_unit_files healthy DetachUeAction serving
           SRS_UE_SERVICE_PATH
           "[Unit]
Description=Srs User Emulator Service
After=network.target
StartLimitIntervalSec=0
[Service]
Type=simple
Restart=always
RestartSec=1
ExecStart=/build/srsue/src/srsue --usim.algo=milenage --nas.apn=oai.ipv4 --rf.device_name=zmq --rf.device_args=tx_port=tcp://*:2001,rx_port=tcp://localhost:2000,id=ue,base_srate=23.04e6 /config/ue.conf
User=root
KillSignal=SIGINT
TimeoutStopSec=10
ExecStopPost=service srsenb restart

[Install]
WantedBy=multi-user.target").
  vm_compute. left. reflexivity.
Defined.

(** X13. Start, Stop, UpdateStatus and the remove-default-gateway action
    never write a file and never restart a service, whether they return or
    raise. *)
Theorem lifecycle_events_write_nothing (h : Host) (ev : Event) (st : Stored) :
  ev = StartEvent \/ ev = StopEvent \/ ev = UpdateStatusEvent
  \/ ev = RemoveDefaultGwAction ->
  written (log (run (handler h ev) st)) = []
  /\ restarted (log (run (handler h ev) st)) = [].
Proof.
  intros Hev.
  change (wp (handler h ev)
            (fun _ _ l => written l = [] /\ restarted l = []) st []).
  destruct Hev as [-> | [-> | [-> | ->]]]; unfold handler; wp_walk;
    split; reflexivity.
Qed.

Lemma lifecycle_events_write_nothing_witness :
  written (log (run (handler healthy StopEvent) serving)) = []
  /\ restarted (log (run (handler healthy StopEvent) serving)) = [].
Proof.
  apply (lifecycle_events_write_nothing healthy StopEvent serving).
  right. left. reflexivity.
Defined.

(** ** Reconfiguration *)

(** X14. A ConfigChanged that returns has stored the freshly resolved bind
    address (possibly none, which removes a stored one), written the srsenb
    unit rendered from the command of that updated state, reloaded systemd,
    restarted srsenb exactly when the unit was started, and last set the
    derived status. *)
Theorem config_changed_effects (h : Host) (st : Stored) :
  outcome (run (_on_config_changed h) st) = Returned tt ->
  let st' := set_bind_addr (_get_bind_address h) st in
  exists text srsenb_unit,
    read_text h SRS_ENB_SERVICE_TEMPLATE = Some text
    /\ render h text (_get_srsenb_command (config h) st') = Some srsenb_unit
    /\ final (run (_on_config_changed h) st) = st'
    /\ log (run (_on_config_changed h) st)
       = ([ Invoke (write_file SRS_ENB_SERVICE_PATH srsenb_unit);
            Invoke systemctl_daemon_reload ]
          ++ reload_effects st
          ++ [ SetUnitStatus (_get_current_status h st') ])%list.
Proof.
  intros Hret st'. subst st'. revert Hret.
  change (wp (_on_config_changed h)
            (fun o s l => o = Returned tt ->
               exists text srsenb_unit,
                 read_text h SRS_ENB_SERVICE_TEMPLATE = Some text
                 /\ render h text
                      (_get_srsenb_command (config h)
                         (set_bind_addr (_get_bind_address h) st))
                    = Some srsenb_unit
                 /\ s = set_bind_addr (_get_bind_address h) st
                 /\ l = ([ Invoke (write_file SRS_ENB_SERVICE_PATH srsenb_unit);
                           Invoke systemctl_daemon_reload ]
                         ++ reload_effects st
                         ++ [ SetUnitStatus
                                (_get_current_status h
                                   (set_bind_addr (_get_bind_address h) st)) ])%list)
            st []).
  wp_walk; try discriminate; intros _;
    match goal with
    | H1 : read_text h _ = Some ?t, H2 : render h ?t _ = Some ?u,
      H3 : started _ = ?b |- _ =>
        exists t, u; cbn [started set_bind_addr] in H3;
        unfold reload_effects; rewrite H3;
        repeat split; [exact H2]
    end.
Qed.

Lemma config_changed_effects_witness :
  exists text srsenb_unit,
    read_text healthy SRS_ENB_SERVICE_TEMPLATE = Some text
    /\ render healthy text
         (_get_srsenb_command (config healthy)
            (set_bind_addr (Some "10.0.0.7") serving)) = Some srsenb_unit
    /\ final (run (_on_config_changed healthy) serving)
       = set_bind_addr (Some "10.0.0.7") serving
    /\ log (run (_on_config_changed healthy) serving)
       = ([ Invoke (write_file SRS_ENB_SERVICE_PATH srsenb_unit);
            Invoke systemctl_daemon_reload ]
          ++ reload_effects serving
          ++ [ SetUnitStatus
                 (_get_current_status healthy
                    (set_bind_addr (Some "10.0.0.7") serving)) ])%list.
Proof.
  apply (config_changed_effects healthy serving). vm_compute. reflexivity.
Defined.

(** X15. A relation-changed event whose address the validator accepts, and
    whose handler returns, has stored that address, written the srsenb unit
    rendered from the command of the updated state, reloaded systemd and
    restarted srsenb exactly when the unit was started: also when the
    address is the one already stored. *)
Theorem mme_relation_changed_effects
    (h : Host) (event : RelationChangedEvent) (databag : gmap string string)
    (st : Stored) :
  triggering_databag event = Some databag ->
  is_ipv4 h (databag !! "mme-addr") = true ->
  outcome (run (_mme_relation_changed h event) st) = Returned tt ->
  let st' := set_mme_addr (databag !! "mme-addr") st in
  exists text srsenb_unit,
    read_text h SRS_ENB_SERVICE_TEMPLATE = Some text
    /\ render h text (_get_srsenb_command (config h) st') = Some srsenb_unit
    /\ final (run (_mme_relation_changed h event) st) = st'
    /\ log (run (_mme_relation_changed h event) st)
       = ([ Invoke (write_file SRS_ENB_SERVICE_PATH srsenb_unit);
            Invoke systemctl_daemon_reload ]
          ++ reload_effects st
          ++ [ SetUnitStatus (_get_current_status h st') ])%list.
Proof.
  intros Hbag Hok Hret st'. subst st'. revert Hret.
  change (wp (_mme_relation_changed h event)
            (fun o s l => o = Returned tt ->
               exists text srsenb_unit,
                 read_text h SRS_ENB_SERVICE_TEMPLATE = Some text
                 /\ render h text
                      (_get_srsenb_command (config h)
                         (set_mme_addr (databag !! "mme-addr") st))
                    = Some srsenb_unit
                 /\ s = set_mme_addr (databag !! "mme-addr") st
                 /\ l = ([ Invoke (write_file SRS_ENB_SERVICE_PATH srsenb_unit);
                           Invoke systemctl_daemon_reload ]
                         ++ reload_effects st
                         ++ [ SetUnitStatus
                                (_get_current_status h
                                   (set_mme_addr (databag !! "mme-addr") st)) ])%list)
            st []).
  unfold _mme_relation_changed. rewrite Hbag. cbn beta iota. rewrite Hok.
  cbn [negb].
  wp_walk; try discriminate; intros _;
    match goal with
    | H1 : read_text h _ = Some ?t, H2 : render h ?t _ = Some ?u,
      H3 : started _ = ?b |- _ =>
        exists t, u; cbn [started set_mme_addr] in H3;
        unfold reload_effects; rewrite H3;
        repeat split; [exact H2]
    end.
Qed.

Lemma mme_relation_changed_effects_witness :
  restarted (log (run (_mme_relation_changed healthy (mme_changed "10.0.0.1")) serving))
  = [SRS_ENB_SERVICE]
  /\ final (run (_mme_relation_changed healthy (mme_changed "10.0.0.1")) serving)
     = serving.
Proof.
  destruct (mme_relation_changed_effects healthy (mme_changed "10.0.0.1")
              (mme_databag "10.0.0.1") serving)
    as (text & srsenb_unit & _ & _ & Hfinal & Hlog).
  - vm_compute. reflexivity.
  - vm_compute. reflexivity.
  - vm_compute. reflexivity.
  - split; [rewrite Hlog | rewrite Hfinal]; reflexivity.
Defined.

(** ** Attach and detach *)

(** X16. An attach action that returns has written the srsue unit rendered
    from the command of the state holding the three values the action
    carried, reloaded systemd, restarted srsue, set the derived status and
    reported success, in this order.  It restarts srsue whether or not the
    unit is installed or started, and never touches srsenb. *)
Theorem attach_effects (h : Host) (event : ActionEvent) (st : Stored) :
  outcome (run (_on_attach_ue_action h event) st) = Returned tt ->
  let subscribed :=
    set_ue_usim_opc (params event !! "usim-opc")
      (set_ue_usim_k (params event !! "usim-k")
         (set_ue_usim_imsi (params event !! "usim-imsi") st)) in
  exists text srsue_unit,
    read_text h SRS_UE_SERVICE_TEMPLATE = Some text
    /\ render h text (_get_srsue_command (config h) subscribed) = Some srsue_unit
    /\ log (run (_on_attach_ue_action h event) st)
       = [ Invoke (write_file SRS_UE_SERVICE_PATH srsue_unit);
           Invoke systemctl_daemon_reload;
           Invoke (service_restart SRS_UE_SERVICE);
           SetUnitStatus (_get_current_status h (set_ue_attached true subscribed));
           SetResults "ok" "Attached successfully" ].
Proof.
  intros Hret subscribed. subst subscribed. revert Hret.
  change (wp (_on_attach_ue_action h event)
            (fun o _ l => o = Returned tt ->
               exists text srsue_unit,
                 read_text h SRS_UE_SERVICE_TEMPLATE = Some text
                 /\ render h text
                      (_get_srsue_command (config h)
                         (set_ue_usim_opc (params event !! "usim-opc")
                            (set_ue_usim_k (params event !! "usim-k")
                               (set_ue_usim_imsi (params event !! "usim-imsi") st))))
                    = Some srsue_unit
                 /\ l = [ Invoke (write_file SRS_UE_SERVICE_PATH srsue_unit);
                          Invoke systemctl_daemon_reload;
                          Invoke (service_restart SRS_UE_SERVICE);
                          SetUnitStatus
                            (_get_current_status h
                               (set_ue_attached true
                                  (set_ue_usim_opc (params event !! "usim-opc")
                                     (set_ue_usim_k (params event !! "usim-k")
                                        (set_ue_usim_imsi
                                           (params event !! "usim-imsi") st)))));
                          SetResults "ok" "Attached successfully" ])
            st []).
  wp_walk; try discriminate; intros _.
  match goal with
  | H1 : read_text h _ = Some ?t, H2 : render h ?t _ = Some ?u |- _ =>
      exists t, u; split; [reflexivity |]; split; [exact H2 | reflexivity]
  end.
Qed.

Lemma attach_effects_witness :
  restarted (log (run (_on_attach_ue_action healthy attach_ue) set_default))
  = [SRS_UE_SERVICE].
Proof.
  destruct (attach_effects healthy attach_ue set_default)
    as (text & srsue_unit & _ & _ & Hlog).
  - vm_compute. reflexivity.
  - rewrite Hlog. reflexivity.
Defined.

(** X17. The srsue command after an attach.  With a non-empty identity the
    arguments are the binary, then the identity, key and operator-code flags
    with the values the action carried, in this order, then the arguments of
    a fresh unit.  With an empty identity the state still stores the three
    values, but the command is that of a fresh unit: key and operator code
    are dropped with the identity. *)
Theorem attach_command
    (cfg : gmap string string) (st : Stored) (imsi k opc : string) :
  let subscribed :=
    set_ue_usim_opc (Some opc) (set_ue_usim_k (Some k) (set_ue_usim_imsi (Some imsi) st)) in
  (imsi <> "" ->
   srsue_command cfg subscribed
   = SRS_UE_BINARY
     :: ("--usim.imsi=" ++ imsi) :: ("--usim.k=" ++ k) :: ("--usim.opc=" ++ opc)
     :: List.tl (srsue_command cfg set_default))
  /\ (imsi = "" -> srsue_command cfg subscribed = srsue_command cfg set_default).
Proof.
  intros subscribed. subst subscribed. split.
  - intros Hne. destruct imsi as [| c imsi]; [now destruct Hne |]. reflexivity.
  - intros ->. reflexivity.
Qed.

Lemma attach_command_witness :
  flag_args "--usim." (srsue_command default_config
     (mutation healthy (AttachUeAction attach_ue) serving))
  = [ "--usim.imsi=001010123456789";
      "--usim.k=00112233445566778899aabbccddeeff";
      "--usim.opc=63bfa50ee6523365ff14c1f45f88737d";
      "--usim.algo=milenage" ]
  /\ srsue_command default_config
       (mutation healthy (AttachUeAction attach_ue_empty_identity) serving)
     = srsue_command default_config set_default.
Proof.
  destruct (attach_command default_config serving "001010123456789"
              "00112233445566778899aabbccddeeff" "63bfa50ee6523365ff14c1f45f88737d")
    as [Hflags _].
  destruct (attach_command default_config serving ""
              "00112233445566778899aabbccddeeff" "63bfa50ee6523365ff14c1f45f88737d")
    as [_ Hnone].
  split.
  - change (mutation healthy (AttachUeAction attach_ue) serving)
      with (set_ue_attached true
              (set_ue_usim_opc (Some "63bfa50ee6523365ff14c1f45f88737d")
                 (set_ue_usim_k (Some "00112233445566778899aabbccddeeff")
                    (set_ue_usim_imsi (Some "001010123456789") serving)))).
    change (srsue_command default_config
              (set_ue_attached true
                 (set_ue_usim_opc (Some "63bfa50ee6523365ff14c1f45f88737d")
                    (set_ue_usim_k (Some "00112233445566778899aabbccddeeff")
                       (set_ue_usim_imsi (Some "001010123456789") serving)))))
      with (srsue_command default_config
              (set_ue_usim_opc (Some "63bfa50ee6523365ff14c1f45f88737d")
                 (set_ue_usim_k (Some "00112233445566778899aabbccddeeff")
                    (set_ue_usim_imsi (Some "001010123456789") serving)))).
    rewrite Hflags; [vm_compute; reflexivity | discriminate].
  - rewrite <- Hnone; [vm_compute | ]; reflexivity.
Defined.

(** X18. A detach action that returns has asked the supervisor to stop srsue
    first, then written the srsue unit rendered from the command of a fresh
    unit (whatever subscriber was stored before), reloaded systemd, set the
    derived status and reported success; it restarts nothing. *)
Theorem detach_effects (h : Host) (st : Stored) :
  outcome (run (_on_detach_ue_action h) st) = Returned tt ->
  exists text srsue_unit,
    read_text h SRS_UE_SERVICE_TEMPLATE = Some text
    /\ render h text (_get_srsue_command (config h) set_default) = Some srsue_unit
    /\ log (run (_on_detach_ue_action h) st)
       = [ Invoke (service_stop SRS_UE_SERVICE);
           Invoke (write_file SRS_UE_SERVICE_PATH srsue_unit);
           Invoke systemctl_daemon_reload;
           SetUnitStatus
             (_get_current_status h (mutation h DetachUeAction st));
           SetResults "ok" "Detached successfully" ].
Proof.
  change (wp (_on_detach_ue_action h)
            (fun o _ l => o = Returned tt ->
               exists text srsue_unit,
                 read_text h SRS_UE_SERVICE_TEMPLATE = Some text
                 /\ render h text (_get_srsue_command (config h) set_default)
                    = Some srsue_unit
                 /\ l = [ Invoke (service_stop SRS_UE_SERVICE);
                          Invoke (write_file SRS_UE_SERVICE_PATH srsue_unit);
                          Invoke systemctl_daemon_reload;
                          SetUnitStatus
                            (_get_current_status h (mutation h DetachUeAction st));
                          SetResults "ok" "Detached successfully" ])
            st []).
  wp_walk; try discriminate; intros _.
  match goal with
  | H1 : read_text h _ = Some ?t, H2 : render h ?t _ = Some ?u |- _ =>
      exists t, u; split; [reflexivity |]; split; [exact H2 | reflexivity]
  end.
Qed.

Lemma detach_effects_witness :
  stopped (log (run (_on_detach_ue_action healthy) attached)) = [SRS_UE_SERVICE]
  /\ restarted (log (run (_on_detach_ue_action healthy) attached)) = [].
Proof.
  destruct (detach_effects healthy attached)
    as (text & srsue_unit & _ & _ & Hlog).
  - vm_compute. reflexivity.
  - rewrite Hlog. split; reflexivity.
Defined.

(** X19. Attach and detach undo each other on the state: on a unit with no
    subscriber stored and [ue_attached] false, an attach action (returning
    or not) followed by a detach action that returns commits the state the
    unit started from. *)
Theorem attach_then_detach
    (h1 h2 : Host) (event : ActionEvent) (st : Stored) :
  populated st = 0 ->
  ue_attached st = false ->
  outcome (run (handler h2 DetachUeAction)
             (committed h1 (AttachUeAction event) st)) = Returned tt ->
  committed h2 DetachUeAction (committed h1 (AttachUeAction event) st) = st.
Proof.
  intros Hnone Hdetached Hret.
  unfold committed at 1. rewrite Hret.
  rewrite (handler_mutation _ _ _ Hret).
  destruct st as [mme bind [i |] [k |] [o |] inst strt att];
    cbn in Hnone, Hdetached; try discriminate Hnone.
  subst att.
  destruct (committed_cases h1 (AttachUeAction event)
              (mkStored mme bind None None None inst strt false))
    as [-> | [_ ->]]; reflexivity.
Qed.

Lemma attach_then_detach_witness :
  committed healthy DetachUeAction
    (committed healthy (AttachUeAction attach_ue) serving) = serving.
Proof.
  apply (attach_then_detach healthy healthy attach_ue serving).
  - reflexivity.
  - reflexivity.
  - vm_compute. reflexivity.
Defined.

(** ** Who calls the supervisor *)

(** X20. Which handler asks the supervisor for what, on every host and
    whether the handler returns or raises.  Only Start starts a service and
    only Install enables one, and that service is srsenb: srsue is never
    started nor enabled.  A stop of srsenb comes from Stop and a stop of
    srsue from the detach action.  A restart of srsenb comes from
    ConfigChanged or the relation handler, on a started unit; a restart of
    srsue comes from the attach action. *)
Theorem supervisor_calls (h : Host) (ev : Event) (st : Stored) (name : string) :
  (In name (begun (log (run (handler h ev) st))) ->
   name = SRS_ENB_SERVICE /\ ev = StartEvent)
  /\ (In name (enabled (log (run (handler h ev) st))) ->
      name = SRS_ENB_SERVICE /\ ev = InstallEvent)
  /\ (In name (stopped (log (run (handler h ev) st))) ->
      (name = SRS_ENB_SERVICE /\ ev = StopEvent)
      \/ (name = SRS_UE_SERVICE /\ ev = DetachUeAction))
  /\ (In name (restarted (log (run (handler h ev) st))) ->
      (name = SRS_ENB_SERVICE /\ started st = true
       /\ (ev = ConfigChangedEvent
           \/ exists event, ev = MmeRelationChangedEvent event))
      \/ (name = SRS_UE_SERVICE /\ exists event, ev = AttachUeAction event)).
Proof.
  change (wp (handler h ev)
            (fun _ _ l =>
               (In name (begun l) -> name = SRS_ENB_SERVICE /\ ev = StartEvent)
               /\ (In name (enabled l) ->
                   name = SRS_ENB_SERVICE /\ ev = InstallEvent)
               /\ (In name (stopped l) ->
                   (name = SRS_ENB_SERVICE /\ ev = StopEvent)
                   \/ (name = SRS_UE_SERVICE /\ ev = DetachUeAction))
               /\ (In name (restarted l) ->
                   (name = SRS_ENB_SERVICE /\ started st = true
                    /\ (ev = ConfigChangedEvent
                        \/ exists event, ev = MmeRelationChangedEvent event))
                   \/ (name = SRS_UE_SERVICE
                       /\ exists event, ev = AttachUeAction event))) st []).
  destruct ev; unfold handler; wp_walk;
    (split; [| split; [| split]]); cbn; intros Hin;
    try (now destruct Hin);
    destruct Hin as [Hname | []]; rewrite <- Hname; cbn in *; eauto 8.
Qed.

Lemma supervisor_calls_witness :
  (SRS_ENB_SERVICE = SRS_ENB_SERVICE /\ StartEvent = StartEvent)
  /\ (SRS_ENB_SERVICE = SRS_ENB_SERVICE /\ InstallEvent = InstallEvent)
  /\ ((SRS_UE_SERVICE = SRS_ENB_SERVICE /\ DetachUeAction = StopEvent)
      \/ (SRS_UE_SERVICE = SRS_UE_SERVICE /\ DetachUeAction = DetachUeAction))
  /\ ((SRS_ENB_SERVICE = SRS_ENB_SERVICE /\ started serving = true
       /\ (ConfigChangedEvent = ConfigChangedEvent
           \/ exists event, ConfigChangedEvent = MmeRelationChangedEvent event))
      \/ (SRS_ENB_SERVICE = SRS_UE_SERVICE
          /\ exists event, ConfigChangedEvent = AttachUeAction event)).
Proof.
  destruct (supervisor_calls healthy StartEvent set_default SRS_ENB_SERVICE)
    as (Hstart & _).
  destruct (supervisor_calls healthy InstallEvent set_default SRS_ENB_SERVICE)
    as (_ & Henable & _).
  destruct (supervisor_calls healthy DetachUeAction attached SRS_UE_SERVICE)
    as (_ & _ & Hstop & _).
  destruct (supervisor_calls healthy ConfigChangedEvent serving SRS_ENB_SERVICE)
    as (_ & _ & _ & Hrestart).
  split; [apply Hstart; vm_compute; left; reflexivity |].
  split; [apply Henable; vm_compute; left; reflexivity |].
  split; [apply Hstop; vm_compute; left; reflexivity |].
  apply Hrestart; vm_compute; left; reflexivity.
Defined.

(** ** Static flags and the command text *)

(** X21. The flags taken from the configuration and the three configuration
    file flags are in their command exactly once, for every state and every
    configuration; an option the configuration lacks does not remove its
    flag, which is then emitted with the text [None]. *)
Theorem static_flags (cfg : gmap string string) (st : Stored) :
  flag_args "--enb.name=" (srsenb_command cfg st)
    = ["--enb.name=" ++ Py.str (cfg !! "enb-name")]
  /\ flag_args "--enb.mcc=" (srsenb_command cfg st)
     = ["--enb.mcc=" ++ Py.str (cfg !! "enb-mcc")]
  /\ flag_args "--enb.mnc=" (srsenb_command cfg st)
     = ["--enb.mnc=" ++ Py.str (cfg !! "enb-mnc")]
  /\ flag_args "--enb_files." (srsenb_command cfg st)
     = [ "--enb_files.rr_config=/config/rr.conf";
         "--enb_files.sib_config=/config/sib.conf";
         "--enb_files.drb_config=/config/drb.conf" ]
  /\ flag_args "--rf.device_name=" (srsenb_command cfg st)
     = ["--rf.device_name=" ++ Py.str (cfg !! "enb-rf-device-name")]
  /\ flag_args "--rf.device_args=" (srsenb_command cfg st)
     = ["--rf.device_args=" ++ Py.str (cfg !! "enb-rf-device-args")]
  /\ flag_args "--usim.algo=" (srsue_command cfg st)
     = ["--usim.algo=" ++ Py.str (cfg !! "ue-usim-algo")]
  /\ flag_args "--nas.apn=" (srsue_command cfg st)
     = ["--nas.apn=" ++ Py.str (cfg !! "ue-nas-apn")]
  /\ flag_args "--rf.device_name=" (srsue_command cfg st)
     = ["--rf.device_name=" ++ Py.str (cfg !! "ue-device-name")]
  /\ flag_args "--rf.device_args=" (srsue_command cfg st)
     = ["--rf.device_args=" ++ Py.str (cfg !! "ue-device-args")]
  /\ (cfg !! "enb-name" = None ->
      In "--enb.name=None" (srsenb_command cfg st)).
Proof.
  unfold srsenb_command, srsue_command.
  destruct (Py.truthy (mme_addr st)), (Py.truthy (bind_addr st)),
    (Py.truthy (ue_usim_imsi st));
    repeat (split; [reflexivity |]);
    intros ->; cbn; auto 20.
Qed.

Lemma static_flags_witness :
  In "--enb.name=None" (srsenb_command ∅ serving).
Proof.
  destruct (static_flags ∅ serving) as (_ & _ & _ & _ & _ & _ & _ & _ & _ & _ & Hnone).
  apply Hnone. reflexivity.
Defined.

(** X22. The builders join their arguments with single spaces and escape
    nothing.  When no configuration value and no stored field has a space in
    it, splitting the command text of either builder on spaces gives back
    exactly its argument list, so the flag laws stated on the list hold of
    the words of the command. *)
Theorem command_words (cfg : gmap string string) (st : Stored) :
  spaceless_config cfg ->
  spaceless (mme_addr st) -> spaceless (bind_addr st) ->
  spaceless (ue_usim_imsi st) -> spaceless (ue_usim_k st) ->
  spaceless (ue_usim_opc st) ->
  Utils.split " " (_get_srsenb_command cfg st) = srsenb_command cfg st
  /\ Utils.split " " (_get_srsue_command cfg st) = srsue_command cfg st.
Proof.
  intros Hcfg Hmme Hbind Himsi Hk Hopc.
  pose proof (fun key => spaceless_lookup cfg key Hcfg) as Hkey.
  split; apply split_join.
  - unfold srsenb_command. discriminate.
  - unfold srsenb_command.
    destruct (Py.truthy (mme_addr st)), (Py.truthy (bind_addr st));
      repeat (apply Forall_cons; split);
      try apply Forall_nil; try reflexivity;
      apply spaceless_flag; auto.
  - unfold srsue_command. discriminate.
  - unfold srsue_command.
    destruct (Py.truthy (ue_usim_imsi st));
      repeat (apply Forall_cons; split);
      try apply Forall_nil; try reflexivity;
      apply spaceless_flag; auto.
Qed.

Lemma command_words_witness :
  Utils.split " " (_get_srsenb_command default_config attached)
    = srsenb_command default_config attached
  /\ Utils.split " " (_get_srsue_command default_config attached)
     = srsue_command default_config attached.
Proof.
  apply (command_words default_config attached).
  - unfold spaceless_config.
    apply (bool_decide_unpack
             (map_Forall (fun (_ : string) value => has_char " " value = false)
                default_config)).
    vm_compute. reflexivity.
  - vm_compute. reflexivity.
  - vm_compute. reflexivity.
  - vm_compute. reflexivity.
  - vm_compute. reflexivity.
  - vm_compute. reflexivity.
Defined.

(** ** The bind address, from the configuration to the command *)

(** X23. Where the bind address of a returning ConfigChanged comes from and
    what it does to the command.  Without a subnet option, or with an empty
    one, it is the address of the default interface and the subnet lookup is
    not used; with a non-empty one it is the address found in that subnet.
    When the lookup finds no address the stored one is cleared and the
    command loses both bind flags; when it finds a non-empty one the command
    has both flags with that address. *)
Theorem bind_address_resolution (h : Host) (st : Stored) :
  outcome (run (_on_config_changed h) st) = Returned tt ->
  let st' := final (run (_on_config_changed h) st) in
  (config h !! "bind-address-subnet" = None
   \/ config h !! "bind-address-subnet" = Some "" ->
   bind_addr st' = ip_from_default_iface h)
  /\ (forall subnet,
        config h !! "bind-address-subnet" = Some subnet -> subnet <> "" ->
        bind_addr st' = ip_from_iface h subnet)
  /\ (bind_addr st' = None ->
      flag_args "--enb.gtp_bind_addr=" (srsenb_command (config h) st') = []
      /\ flag_args "--enb.s1c_bind_addr=" (srsenb_command (config h) st') = [])
  /\ (forall a, bind_addr st' = Some a -> a <> "" ->
        flag_args "--enb.gtp_bind_addr=" (srsenb_command (config h) st')
          = ["--enb.gtp_bind_addr=" ++ a]
        /\ flag_args "--enb.s1c_bind_addr=" (srsenb_command (config h) st')
           = ["--enb.s1c_bind_addr=" ++ a]).
Proof.
  intros Hret st'. subst st'.
  pose proof (handler_mutation h ConfigChangedEvent st Hret) as Hfinal.
  cbn [handler mutation] in Hfinal. rewrite Hfinal.
  split; [| split; [| split]].
  - intros [Hnone | Hempty]; cbn [bind_addr set_bind_addr];
      unfold _get_bind_address; [rewrite Hnone | rewrite Hempty]; reflexivity.
  - intros subnet Hsubnet Hne. cbn [bind_addr set_bind_addr].
    unfold _get_bind_address. rewrite Hsubnet.
    destruct subnet as [| c subnet]; [now destruct Hne | reflexivity].
  - intros Hnone. rewrite enb_gtp_flag, enb_s1c_flag, Hnone. split; reflexivity.
  - intros a Ha Hne. rewrite enb_gtp_flag, enb_s1c_flag, Ha.
    destruct a as [| c a]; [now destruct Hne |]. split; reflexivity.
Qed.

Lemma bind_address_resolution_witness :
  bind_addr (final (run (_on_config_changed asleep) addressed)) = None
  /\ flag_args "--enb.gtp_bind_addr="
       (srsenb_command (config asleep)
          (final (run (_on_config_changed asleep) addressed))) = []
  /\ flag_args "--enb.gtp_bind_addr="
       (srsenb_command (config healthy)
          (final (run (_on_config_changed healthy) serving)))
     = ["--enb.gtp_bind_addr=10.0.0.7"].
Proof.
  destruct (bind_address_resolution asleep addressed) as (Hdefault & _ & Hnone & _);
    [vm_compute; reflexivity |].
  destruct (bind_address_resolution healthy serving) as (_ & _ & _ & Hsome);
    [vm_compute; reflexivity |].
  assert (Hcleared : bind_addr (final (run (_on_config_changed asleep) addressed)) = None).
  { rewrite Hdefault; [reflexivity | left; vm_compute; reflexivity]. }
  split; [exact Hcleared |].
  split; [apply Hnone, Hcleared |].
  apply (Hsome "10.0.0.7"); [vm_compute; reflexivity | discriminate].
Defined.

(** ** Writing a unit file *)

(** X24. [_configure_service] works in stages and leaves no stage half done.
    It never changes the stored state.  When the template cannot be read or
    rendering raises, nothing has been written.  When the write raises,
    systemd has not been reloaded.  When it returns, it has written the
    rendered template to the unit path and then reloaded systemd, and
    nothing else. *)
Theorem configure_service_stages
    (h : Host) (command service_template service_path : string)
    (st : Stored) (before : list Effect) :
  let r := _configure_service h command service_template service_path st before in
  final r = st
  /\ (outcome r = Raised (OpenError service_template)
      \/ outcome r = Raised (TemplateError service_template) ->
      log r = before)
  /\ (forall content,
        outcome r = Raised (CallError (write_file service_path content)) ->
        log r = (before ++ [Invoke (write_file service_path content)])%list)
  /\ (outcome r = Returned tt ->
      exists text content,
        read_text h service_template = Some text
        /\ render h text command = Some content
        /\ log r = (before ++ [ Invoke (write_file service_path content);
                                Invoke systemctl_daemon_reload ])%list).
Proof.
  change (wp (_configure_service h command service_template service_path)
            (fun o s l =>
               s = st
               /\ (o = Raised (OpenError service_template)
                   \/ o = Raised (TemplateError service_template) ->
                   l = before)
               /\ (forall content,
                     o = Raised (CallError (write_file service_path content)) ->
                     l = (before ++ [Invoke (write_file service_path content)])%list)
               /\ (o = Returned tt ->
                   exists text content,
                     read_text h service_template = Some text
                     /\ render h text command = Some content
                     /\ l = (before ++ [ Invoke (write_file service_path content);
                                         Invoke systemctl_daemon_reload ])%list))
            st before).
  unfold _configure_service. repeat wp_step;
    (split; [reflexivity |]);
    (split; [intros [Ho | Ho]; try discriminate Ho; reflexivity |]);
    (split; [intros content Ho; try discriminate Ho;
             try (injection Ho as <-; reflexivity) |]);
    intros Ho; try discriminate Ho.
  eexists _, _. split; [reflexivity |]. split; [eassumption |].
  now rewrite <- app_assoc.
Qed.

Lemma configure_service_stages_witness :
  log (_configure_service (with_templates template_unclosed) "srsenb"
         SRS_ENB_SERVICE_TEMPLATE SRS_ENB_SERVICE_PATH serving []) = []
  /\ exists text content,
       read_text healthy SRS_ENB_SERVICE_TEMPLATE = Some text
       /\ render healthy text "srsenb" = Some content
       /\ log (_configure_service healthy "srsenb"
                 SRS_ENB_SERVICE_TEMPLATE SRS_ENB_SERVICE_PATH serving [])
          = ([] ++ [ Invoke (write_file SRS_ENB_SERVICE_PATH content);
                     Invoke systemctl_daemon_reload ])%list.
Proof.
  destruct (configure_service_stages (with_templates template_unclosed) "srsenb"
              SRS_ENB_SERVICE_TEMPLATE SRS_ENB_SERVICE_PATH serving [])
    as (_ & Hnothing & _).
  destruct (configure_service_stages healthy "srsenb"
              SRS_ENB_SERVICE_TEMPLATE SRS_ENB_SERVICE_PATH serving [])
    as (_ & _ & _ & Hwritten).
  split.
  - apply Hnothing. right. vm_compute. reflexivity.
  - apply Hwritten. vm_compute. reflexivity.
Defined.
